(** * BufferLevel: one storage level of the accelerator model

    A shallow embedding of [src/model/buffer.cpp] (class [model::BufferLevel]):
    the capacity pre-check, the access and capacity evaluator with its
    sparse tile-size convergence loop, the energy passes and the
    performance pass, followed by the properties established about them.

    Conventions of the embedding.
    - [std::uint64_t] and [std::size_t] values are integers of [Z]; every
      machine operation on them writes its reduction modulo [2^64] out
      ([u64]).
    - [double] values are rationals of [Q] with exact arithmetic: rounding
      to binary64 is not modelled.  A quotient whose divisor is zero, which
      in C++ yields an infinity or a NaN (and traps for integers), ends the
      run with the fault [DivisionByZero].
    - [assert] is enabled: a failing assertion ends the run with
      [AssertionFailure].
    - [problem::PerDataSpace<T>] inputs are read by data-space index and are
      functions of the index; the statistics the level owns are a list with
      one entry per data space. *)

From Stdlib Require Import ZArith QArith Qround Qminmax Lia.
From stdpp Require Import base option list gmap strings.

Local Open Scope Z_scope.

(** ** Outcomes of a run *)

Inductive fault : Type :=
| AssertionFailure   (* an [assert] fired *)
| DivisionByZero     (* a quotient or remainder with divisor zero *)
| OutOfRange         (* [std::map::at] on a missing key, or an index past the end *)
| Unspecified        (* [Attribute::Get] on an attribute that is not specified *)
| Undefined          (* [log2] of zero converted to an integer *)
| OutOfFuel.         (* the while loop did not finish within the given fuel *)

Inductive outcome (A : Type) : Type :=
| Done (a : A)
| Fault (f : fault).

Arguments Done {A} a.
Arguments Fault {A} f.

#[global] Instance outcome_ret : MRet outcome := fun _ a => Done a.
#[global] Instance outcome_bind : MBind outcome := fun _ _ k m =>
  match m with
  | Done a => k a
  | Fault f => Fault f
  end.

Definition assert (b : bool) : outcome unit :=
  if b then Done tt else Fault AssertionFailure.

(** Modelled from the spec: [Attribute<T>] of [model/attribute.hpp], which is
    not among the sources.  The specification record calls such a field
    optional ("unspecified means effectively infinite"); [IsSpecified] is
    [is_Some] and [Get] on an unspecified attribute has no value. *)
Definition Get {A : Type} (a : option A) : outcome A :=
  match a with
  | Some x => Done x
  | None => Fault Unspecified
  end.

Definition IsSpecified {A : Type} (a : option A) : bool :=
  match a with
  | Some _ => true
  | None => false
  end.

(** [std::map::at]: throws on a missing key. *)
Definition at_ {V : Type} (m : gmap string V) (k : string) : outcome V :=
  match m !! k with
  | Some v => Done v
  | None => Fault OutOfRange
  end.

(** ** Machine numbers *)

Definition u64 (z : Z) : Z := z mod 2 ^ 64.

(** Integer quotient and remainder of two [uint64_t]. *)
Definition udiv (a b : Z) : outcome Z :=
  if b =? 0 then Fault DivisionByZero else Done (a / b).

Definition umod (a b : Z) : outcome Z :=
  if b =? 0 then Fault DivisionByZero else Done (a mod b).

Definition dbl (z : Z) : Q := inject_Z z.

Definition fdiv (x y : Q) : outcome Q :=
  if Qeq_bool y 0 then Fault DivisionByZero else Done (x / y)%Q.

Definition Qltb (x y : Q) : bool := negb (Qle_bool y x).

Definition ceil (x : Q) : Z := Qceiling x.

(** Conversion of a [double] to an unsigned integer drops the fraction. *)
Definition trunc (x : Q) : Z :=
  if Qle_bool 0 x then Qfloor x else Qceiling x.

(** [std::string::find (pat) != npos]. *)
Definition found (pat s : string) : bool :=
  match String.index 0 pat s with
  | Some _ => true
  | None => false
  end.

(** ** Inputs: the tiling's data-movement record *)

Module problem.

(** The density-model collaborator reached through
    [tile[pvi].tile_density] and [workload->GetDensity(pvi)]: its queries
    are taken as they are called in this file. *)
Record DataDensity : Type := {
  user_defined_knob : bool;
  GetUserDefinedConfidence : Q;
  GetTileExpectedDensity : Z -> Q;
  GetTileConfidence : Z -> Z -> Q;
  (* tile size, confidence, and the optional buffer size *)
  GetTileDensityByConfidence : Z -> Q -> option Z -> Q
}.

End problem.

Module tiling.

Record DataMovementInfo {Subnest : Type} : Type := {
  size : Z;
  partition_size : Z;
  compressed : bool;
  metadata_format : string;
  tile_density : problem.DataDensity;
  dense_rank1_fills : Z;
  dense_rank0_fills : Z;
  replication_factor : Z;
  content_accesses : Z;
  reads : Z;
  updates : Z;
  fills : Z;
  temporal_reductions : Z;
  metadata_reads : Z;
  metadata_fills : Z;
  metadata_updates : Z;
  fine_grained_accesses : gmap string Z;
  parent_level : Z;
  parent_level_name : string;
  parent_level_op_energy : gmap string Q;
  parent_level_simple_specs : gmap string Z;
  subnest : Subnest
}.
Arguments DataMovementInfo : clear implicits.

End tiling.

(** ** The level: specification, statistics, evaluation status *)

Inductive Technology : Type := SRAM | DRAM.

Module Specs.

Record t : Type := {
  technology : Technology;
  size : option Z;
  word_bits : Z;
  addr_gen_bits : option Z;
  block_size : option Z;
  metadata_block_size : Z;
  metadata_word_bits : Z;
  cluster_size : option Z;
  instances : option Z;
  read_bandwidth : option Q;
  write_bandwidth : option Q;
  multiple_buffering : Q;
  effective_size : option Z;
  min_utilization : Q;
  addr_gen_energy : Q;
  op_energy_map : gmap string Q
}.

Definition set_addr_gen_bits (bits : Z) (s : t) : t :=
  {| technology := technology s; size := size s; word_bits := word_bits s;
     addr_gen_bits := Some bits; block_size := block_size s;
     metadata_block_size := metadata_block_size s;
     metadata_word_bits := metadata_word_bits s;
     cluster_size := cluster_size s; instances := instances s;
     read_bandwidth := read_bandwidth s; write_bandwidth := write_bandwidth s;
     multiple_buffering := multiple_buffering s;
     effective_size := effective_size s; min_utilization := min_utilization s;
     addr_gen_energy := addr_gen_energy s; op_energy_map := op_energy_map s |}.

End Specs.

Module Stats.

(** The entries of [stats_] that step 1 of [ComputeAccesses] assigns, for
    one data space. *)
Record Accesses : Type := {
  keep : bool;
  partition_size : Z;
  tile_size : Z;
  tile_confidence : Q;
  compressed_tile_size : Z;
  metadata_tile_size : Z;
  tile_max_density : Q;
  utilized_capacity : Z;
  utilized_instances : Z;
  reads : Z;
  updates : Z;
  fills : Z;
  temporal_reductions : Z;
  address_generations : Z;
  metadata_reads : Z;
  metadata_fills : Z;
  metadata_updates : Z;
  gated_reads : Z;
  skipped_reads : Z;
  random_reads : Z;
  gated_fills : Z;
  skipped_fills : Z;
  random_fills : Z;
  random_updates : Z;
  gated_updates : Z;
  skipped_updates : Z;
  random_metadata_reads : Z;
  gated_metadata_reads : Z;
  random_metadata_fills : Z;
  gated_metadata_fills : Z;
  random_metadata_updates : Z;
  gated_metadata_updates : Z;
  decompression_counts : Z;
  compression_counts : Z
}.

(** All the per-data-space entries of [stats_], for one data space: the
    C++ structure of arrays, read across at one index. *)
Record PerDataSpace : Type := {
  accesses : Accesses;
  utilized_clusters : Z;
  parent_level_name : string;
  speculation_energy_cost : Q;
  energy : Q;
  energy_per_access : Q;
  temporal_reduction_energy : Q;
  addr_gen_energy : Q;
  read_bandwidth : Q;
  write_bandwidth : Q
}.

Record t : Type := {
  per_data_space : list PerDataSpace;
  slowdown : Q;
  cycles : Z
}.

End Stats.

(** The message written to [fail_reason], with the numbers it prints. *)
Inductive FailReason : Type :=
| ExceedsBufferCapacity (mapped capacity : Z)
| LessThanMinimumUtilization (mapped : Z) (minimum : Q)
| ExceedsHardwareInstances (mapped available : Z).

Record EvalStatus : Type := {
  success : bool;
  fail_reason : list FailReason
}.

(** The mutable members of [BufferLevel] and the two network queries it
    makes ([network_read_->DistributedMulticastSupported()],
    [network_update_->WordBits()]). *)
Record BufferLevel {Subnest : Type} : Type := {
  specs_ : Specs.t;
  stats_ : Stats.t;
  subnest_ : Subnest;
  is_evaluated_ : bool;
  network_read_DistributedMulticastSupported : bool;
  network_update_WordBits : Z
}.
Arguments BufferLevel : clear implicits.

(** ** GetMetaDataTileSize *)

Section MetaData.
Context {Subnest : Type}.
Implicit Types per_datatype_tile_info : tiling.DataMovementInfo Subnest.

Definition GetMetaDataTileSize per_datatype_tile_info (tile_density : Q) : Z :=
  if String.eqb (tiling.metadata_format per_datatype_tile_info) "bitmask" then
    tiling.size per_datatype_tile_info
  else if String.eqb (tiling.metadata_format per_datatype_tile_info) "RLE" then
    u64 (ceil (dbl (tiling.size per_datatype_tile_info) * tile_density))
  else if String.eqb (tiling.metadata_format per_datatype_tile_info) "CSR" then
    u64 (trunc (dbl (tiling.dense_rank1_fills per_datatype_tile_info)
                + dbl (tiling.dense_rank0_fills per_datatype_tile_info) * tile_density))
  else 0.

End MetaData.

(** ** ComputeAccesses, step 1: tile sizes of one data space *)

(** The local variables of the compressed-size estimate that the
    conservative re-estimation and its while loop read and write. *)
Record Estimate : Type := {
  equivalent_metadata_tile_size : Z;
  updated_equivalent_metadata_tile_size : Z;
  metadata_tile_size : Z;
  compressed_tile_size : Z;
  stored_data_density : Q;
  tile_confidence : Q
}.

(** What step 1 settles for one data space before it is stored in
    [stats_]. *)
Record TileSizes : Type := {
  ts_tile_confidence : Q;
  ts_compressed_tile_size : Z;
  ts_metadata_tile_size : Z;
  ts_stored_data_density : Q
}.

Section Evaluator.
Context {Subnest : Type}.

(** [problem::GetShape()]: the number of data spaces and which of them are
    read-write; [tiling::storageOperationTypes] up to
    [tiling::GetNumOpTypes("storage")]; [pat::AdderEnergy]; and whether the
    build defines [FIXED_DRAM_SIZE_IF_UNSPECIFIED].  The build is taken not
    to define [UPDATE_UNSPECIFIED_SPECS]. *)
Variable NumDataSpaces : nat.
Variable IsReadWriteDataSpace : nat -> bool.
Variable storageOperationTypes : list string.
Variable AdderEnergy : Z -> Z -> Q.
Variable FIXED_DRAM_SIZE_IF_UNSPECIFIED : bool.

Local Abbreviation DataMovementInfo := (tiling.DataMovementInfo Subnest).
Local Abbreviation CompoundDataMovementInfo := (nat -> tiling.DataMovementInfo Subnest).
Local Abbreviation CompoundMask := (nat -> bool).
Local Abbreviation Level := (BufferLevel Subnest).

(** [ceil((double)metadata_tile_size * metadata_word_bits / word_bits)] *)
Definition metadata_equivalent (specs : Specs.t) (metadata_tile_size : Z) : outcome Z :=
  q ← fdiv (dbl metadata_tile_size * dbl (Specs.metadata_word_bits specs))
           (dbl (Specs.word_bits specs));
  mret (u64 (ceil q)).

(** Lines 651-656: the capacity-sharing weight. *)
Fixpoint total_tile_size_from (specs : Specs.t) (tile : CompoundDataMovementInfo)
    (n pvi : nat) (total_tile_size : Z) : outcome Z :=
  match n with
  | O => mret total_tile_size
  | S n' =>
      let t := tile pvi in
      let total_tile_size := u64 (total_tile_size + tiling.size t) in
      e ← metadata_equivalent specs
            (GetMetaDataTileSize t
               (problem.GetTileExpectedDensity (tiling.tile_density t) (tiling.size t)));
      total_tile_size_from specs tile n' (S pvi) (u64 (total_tile_size + e))
  end.

Definition total_tile_size (specs : Specs.t) (tile : CompoundDataMovementInfo) : outcome Z :=
  total_tile_size_from specs tile NumDataSpaces 0%nat 0.

(** One estimate from a given buffer size: confidence, density at that
    confidence, compressed size and metadata size. *)
Definition estimate_for (t : DataMovementInfo) (buffer_size : Z) : Q * Q * Z * Z :=
  let density := tiling.tile_density t in
  let confidence := problem.GetTileConfidence density (tiling.size t) buffer_size in
  let stored :=
    problem.GetTileDensityByConfidence density (tiling.size t) confidence (Some buffer_size) in
  (confidence, stored, u64 (ceil (dbl (tiling.size t) * stored)), GetMetaDataTileSize t stored).

(** The condition of the while loop (line 748). *)
Definition keeps_tightening (allocated_effective_buffer_size : Z) (e : Estimate) : bool :=
  Qle_bool
    (dbl (u64 (updated_equivalent_metadata_tile_size e + compressed_tile_size e)))
    ((99 # 100) * dbl allocated_effective_buffer_size)
  && negb (updated_equivalent_metadata_tile_size e =? equivalent_metadata_tile_size e).

(** The body of the while loop (lines 751-771).  Line 759 has no cast to
    [double]: its quotient is the integer one. *)
Definition tighten (specs : Specs.t) (t : DataMovementInfo)
    (allocated_effective_buffer_size : Z) (e : Estimate) : outcome Estimate :=
  let equivalent := updated_equivalent_metadata_tile_size e in
  let '(tmp_tile_confidence, tmp_stored_data_density,
        tmp_compressed_tile_size, tmp_metadata_tile_size) :=
    estimate_for t (u64 (allocated_effective_buffer_size - equivalent)) in
  updated ← udiv (u64 (tmp_metadata_tile_size * Specs.metadata_word_bits specs))
                 (Specs.word_bits specs);
  let updated :=
    if allocated_effective_buffer_size <? u64 (updated + tmp_compressed_tile_size)
    then equivalent else updated in
  mret (if negb (updated =? equivalent)
        then {| equivalent_metadata_tile_size := equivalent;
                updated_equivalent_metadata_tile_size := updated;
                metadata_tile_size := tmp_metadata_tile_size;
                compressed_tile_size := tmp_compressed_tile_size;
                stored_data_density := tmp_stored_data_density;
                tile_confidence := tmp_tile_confidence |}
        else {| equivalent_metadata_tile_size := equivalent;
                updated_equivalent_metadata_tile_size := updated;
                metadata_tile_size := metadata_tile_size e;
                compressed_tile_size := compressed_tile_size e;
                stored_data_density := stored_data_density e;
                tile_confidence := tile_confidence e |}).

(** The while loop (lines 748-772), run for at most [fuel] iterations. *)
Fixpoint converge (fuel : nat) (specs : Specs.t) (t : DataMovementInfo)
    (allocated_effective_buffer_size : Z) (e : Estimate) : outcome Estimate :=
  if keeps_tightening allocated_effective_buffer_size e then
    match fuel with
    | O => Fault OutOfFuel
    | S fuel' =>
        e' ← tighten specs t allocated_effective_buffer_size e;
        converge fuel' specs t allocated_effective_buffer_size e'
    end
  else mret e.

Definition fits (allocated_effective_buffer_size : Z) (e : Estimate) : bool :=
  u64 (updated_equivalent_metadata_tile_size e + compressed_tile_size e)
  <=? allocated_effective_buffer_size.

(** The conservative re-estimation (the block of lines 724-775), entered
    with the metadata equivalent of the first estimate. *)
Definition reestimate (fuel : nat) (specs : Specs.t) (t : DataMovementInfo)
    (allocated_effective_buffer_size equivalent : Z) : outcome Estimate :=
  let '(confidence, stored, compressed, metadata) :=
    estimate_for t (u64 (u64 (allocated_effective_buffer_size - equivalent) - 1)) in
  updated ← metadata_equivalent specs metadata;
  let e := {| equivalent_metadata_tile_size := equivalent;
              updated_equivalent_metadata_tile_size := updated;
              metadata_tile_size := metadata;
              compressed_tile_size := compressed;
              stored_data_density := stored;
              tile_confidence := confidence |} in
  _ ← assert (fits allocated_effective_buffer_size e);
  e' ← converge fuel specs t allocated_effective_buffer_size e;
  _ ← assert (fits allocated_effective_buffer_size e');
  mret e'.

(** Lines 696-701. *)
Definition allocated_share (effective_size total_tile_size tile_size equivalent : Z) : Z :=
  if negb (total_tile_size =? 0)
  then u64 (effective_size * u64 (tile_size + equivalent)) / total_tile_size
  else effective_size.

(** Lines 687-778: compression on, no user-defined knob, finite buffer. *)
Definition fit_to_buffer (fuel : nat) (specs : Specs.t) (t : DataMovementInfo)
    (total_tile_size effective_size : Z) : outcome TileSizes :=
  let density := tiling.tile_density t in
  equivalent ← metadata_equivalent specs
    (GetMetaDataTileSize t (problem.GetTileExpectedDensity density (tiling.size t)));
  let allocated_effective_buffer_size :=
    allocated_share effective_size total_tile_size (tiling.size t) equivalent in
  let '(confidence, stored, compressed, metadata) :=
    estimate_for t (u64 (allocated_effective_buffer_size - equivalent)) in
  equivalent ← metadata_equivalent specs metadata;
  if (allocated_effective_buffer_size <? u64 (equivalent + compressed))
     && negb (Qeq_bool confidence 0)
  then
    e ← reestimate fuel specs t allocated_effective_buffer_size equivalent;
    mret {| ts_tile_confidence := tile_confidence e;
            ts_compressed_tile_size := compressed_tile_size e;
            ts_metadata_tile_size := metadata_tile_size e;
            ts_stored_data_density := stored_data_density e |}
  else
    mret {| ts_tile_confidence := confidence;
            ts_compressed_tile_size := compressed;
            ts_metadata_tile_size := metadata;
            ts_stored_data_density := stored |}.

(** Lines 670-795: the tile sizes of one data space. *)
Definition tile_sizes (fuel : nat) (specs : Specs.t) (t : DataMovementInfo)
    (total_tile_size : Z) : outcome TileSizes :=
  let density := tiling.tile_density t in
  if tiling.compressed t then
    if problem.user_defined_knob density then
      let confidence := problem.GetUserDefinedConfidence density in
      let stored := problem.GetTileDensityByConfidence density (tiling.size t) confidence None in
      mret {| ts_tile_confidence := confidence;
              ts_compressed_tile_size := u64 (ceil (dbl (tiling.size t) * stored));
              ts_metadata_tile_size := GetMetaDataTileSize t stored;
              ts_stored_data_density := stored |}
    else if IsSpecified (Specs.effective_size specs) then
      effective_size ← Get (Specs.effective_size specs);
      fit_to_buffer fuel specs t total_tile_size effective_size
    else
      let stored := problem.GetTileExpectedDensity density (tiling.size t) in
      mret {| ts_tile_confidence := 1;
              ts_compressed_tile_size := u64 (ceil (dbl (tiling.size t) * stored));
              ts_metadata_tile_size := GetMetaDataTileSize t stored;
              ts_stored_data_density := stored |}
  else
    mret {| ts_tile_confidence := 1;
            ts_compressed_tile_size := tiling.size t;
            ts_metadata_tile_size :=
              if String.eqb (tiling.metadata_format t) "bitmask" then tiling.size t else 0;
            ts_stored_data_density := 1 |}.

(** ** ComputeAccesses *)

(** A loop [for (pvi = 0; pvi < NumDataSpaces; pvi++)] whose body assigns
    the entries of [stats_] at index [pvi]. *)
Fixpoint for_each_from
    (body : nat -> Stats.PerDataSpace -> outcome Stats.PerDataSpace)
    (n pvi : nat) (stats : list Stats.PerDataSpace) : outcome (list Stats.PerDataSpace) :=
  match n with
  | O => mret stats
  | S n' =>
      match stats !! pvi with
      | None => Fault OutOfRange
      | Some x =>
          x' ← body pvi x;
          for_each_from body n' (S pvi) (<[pvi := x']> stats)
      end
  end.

Definition for_each_data_space
    (body : nat -> Stats.PerDataSpace -> outcome Stats.PerDataSpace)
    (stats : list Stats.PerDataSpace) : outcome (list Stats.PerDataSpace) :=
  for_each_from body NumDataSpaces 0%nat stats.

Definition set_accesses (a : Stats.Accesses) (x : Stats.PerDataSpace) : Stats.PerDataSpace :=
  {| Stats.accesses := a;
     Stats.utilized_clusters := Stats.utilized_clusters x;
     Stats.parent_level_name := Stats.parent_level_name x;
     Stats.speculation_energy_cost := Stats.speculation_energy_cost x;
     Stats.energy := Stats.energy x;
     Stats.energy_per_access := Stats.energy_per_access x;
     Stats.temporal_reduction_energy := Stats.temporal_reduction_energy x;
     Stats.addr_gen_energy := Stats.addr_gen_energy x;
     Stats.read_bandwidth := Stats.read_bandwidth x;
     Stats.write_bandwidth := Stats.write_bandwidth x |}.

(** Lines 658-888: everything step 1 stores for data space [pvi]. *)
Definition collect_stats (fuel : nat) (specs : Specs.t)
    (tile : CompoundDataMovementInfo) (mask : CompoundMask)
    (total_tile_size : Z) (pvi : nat) : outcome Stats.Accesses :=
  let t := tile pvi in
  sizes ← tile_sizes fuel specs t total_tile_size;
  q ← fdiv (dbl (ts_metadata_tile_size sizes) * dbl (Specs.metadata_word_bits specs))
           (dbl (Specs.word_bits specs));
  _ ← assert (Bool.eqb (tiling.size t =? 0) (tiling.content_accesses t =? 0));
  let fine := tiling.fine_grained_accesses t in
  gated_read ← at_ fine "gated_read";
  skipped_read ← at_ fine "skipped_read";
  random_read ← at_ fine "random_read";
  gated_fill ← at_ fine "gated_fill";
  skipped_fill ← at_ fine "skipped_fill";
  random_fill ← at_ fine "random_fill";
  random_update ← at_ fine "random_update";
  gated_update ← at_ fine "gated_update";
  skipped_update ← at_ fine "skipped_update";
  metadata_read ← at_ fine "metadata_read";
  gated_metadata_read ← at_ fine "gated_metadata_read";
  metadata_fill ← at_ fine "metadata_fill";
  gated_metadata_fill ← at_ fine "gated_metadata_fill";
  metadata_update ← at_ fine "metadata_update";
  gated_metadata_update ← at_ fine "gated_metadata_update";
  decompression_count ← at_ fine "decompression_count";
  compression_count ← at_ fine "compression_count";
  mret {| Stats.keep := mask pvi;
          Stats.partition_size := tiling.partition_size t;
          Stats.tile_size := tiling.size t;
          Stats.tile_confidence := ts_tile_confidence sizes;
          Stats.compressed_tile_size := ts_compressed_tile_size sizes;
          Stats.metadata_tile_size := ts_metadata_tile_size sizes;
          Stats.tile_max_density := ts_stored_data_density sizes;
          Stats.utilized_capacity := u64 (ts_compressed_tile_size sizes + ceil q);
          Stats.utilized_instances := tiling.replication_factor t;
          Stats.reads := tiling.reads t;
          Stats.updates := tiling.updates t;
          Stats.fills := tiling.fills t;
          Stats.temporal_reductions := tiling.temporal_reductions t;
          Stats.address_generations :=
            if IsReadWriteDataSpace pvi
            then u64 (tiling.updates t + tiling.fills t)
            else u64 (tiling.reads t + tiling.fills t);
          Stats.metadata_reads := tiling.metadata_reads t;
          Stats.metadata_fills := tiling.metadata_fills t;
          Stats.metadata_updates := tiling.metadata_updates t;
          Stats.gated_reads := gated_read;
          Stats.skipped_reads := skipped_read;
          Stats.random_reads := random_read;
          Stats.gated_fills := gated_fill;
          Stats.skipped_fills := skipped_fill;
          Stats.random_fills := random_fill;
          Stats.random_updates := random_update;
          Stats.gated_updates := gated_update;
          Stats.skipped_updates := skipped_update;
          Stats.random_metadata_reads := metadata_read;
          Stats.gated_metadata_reads := gated_metadata_read;
          Stats.random_metadata_fills := metadata_fill;
          Stats.gated_metadata_fills := gated_metadata_fill;
          Stats.random_metadata_updates := metadata_update;
          Stats.gated_metadata_updates := gated_metadata_update;
          Stats.decompression_counts := decompression_count;
          Stats.compression_counts := compression_count |}.

(** [std::accumulate (stats_.utilized_capacity.begin(), .end(), 0ULL)] *)
Definition total_utilized_capacity (stats : list Stats.PerDataSpace) : Z :=
  foldl (fun acc x => u64 (acc + Stats.utilized_capacity (Stats.accesses x))) 0 stats.

(** [stats_.utilized_instances.Max()] *)
Definition utilized_instances_Max (stats : list Stats.PerDataSpace) : Z :=
  foldr (fun x m => Z.max (Stats.utilized_instances (Stats.accesses x)) m) 0 stats.

(** Lines 896-914: the capacity and the minimum-utilization test. *)
Definition check_capacity (specs : Specs.t) (total_utilized_capacity : Z)
  : outcome (bool * list FailReason) :=
  if negb (IsSpecified (Specs.size specs)) then mret (true, [])
  else
    effective_size ← Get (Specs.effective_size specs);
    if effective_size <? total_utilized_capacity then
      mret (false, [ExceedsBufferCapacity total_utilized_capacity effective_size])
    else if Qltb (dbl total_utilized_capacity)
                 (dbl effective_size * Specs.min_utilization specs) then
      mret (false, [LessThanMinimumUtilization total_utilized_capacity
                      (dbl effective_size * Specs.min_utilization specs)])
    else mret (true, []).

(** [ceil (log2 (address_range))] as an unsigned integer. *)
Definition log2_ceil (address_range : Z) : outcome Z :=
  if address_range =? 0 then Fault Undefined else mret (Z.log2_up address_range).

(** Lines 921-942. *)
Definition compute_addr_gen_bits (specs : Specs.t) (total_utilized_capacity : Z) : outcome Z :=
  if IsSpecified (Specs.size specs) then
    size ← Get (Specs.size specs);
    block_size ← Get (Specs.block_size specs);
    address_range ← udiv size block_size;
    log2_ceil address_range
  else
    match Specs.technology specs with
    | DRAM =>
        if FIXED_DRAM_SIZE_IF_UNSPECIFIED then mret 48
        else
          block_size ← Get (Specs.block_size specs);
          address_range ← udiv total_utilized_capacity block_size;
          log2_ceil address_range
    | SRAM =>
        block_size ← Get (Specs.block_size specs);
        address_range ← udiv total_utilized_capacity block_size;
        log2_ceil address_range
    end.

(** Lines 943-954. *)
Definition check_instances (specs : Specs.t) (stats : list Stats.PerDataSpace)
    (status : bool * list FailReason) : outcome (bool * list FailReason) :=
  if negb (IsSpecified (Specs.instances specs)) then mret status
  else
    instances ← Get (Specs.instances specs);
    if instances <? utilized_instances_Max stats then
      mret (false, status.2 ++ [ExceedsHardwareInstances (utilized_instances_Max stats) instances])
    else mret status.

Definition set_utilized_clusters (c : Z) (x : Stats.PerDataSpace) : Stats.PerDataSpace :=
  {| Stats.accesses := Stats.accesses x;
     Stats.utilized_clusters := c;
     Stats.parent_level_name := Stats.parent_level_name x;
     Stats.speculation_energy_cost := Stats.speculation_energy_cost x;
     Stats.energy := Stats.energy x;
     Stats.energy_per_access := Stats.energy_per_access x;
     Stats.temporal_reduction_energy := Stats.temporal_reduction_energy x;
     Stats.addr_gen_energy := Stats.addr_gen_energy x;
     Stats.read_bandwidth := Stats.read_bandwidth x;
     Stats.write_bandwidth := Stats.write_bandwidth x |}.

(** Lines 962-972. *)
Definition compute_utilized_clusters (specs : Specs.t) (pvi : nat)
    (x : Stats.PerDataSpace) : outcome Stats.PerDataSpace :=
  instances ← Get (Specs.instances specs);
  cluster_size ← Get (Specs.cluster_size specs);
  num_clusters ← udiv instances cluster_size;
  mret (set_utilized_clusters
          (Z.min (Stats.utilized_instances (Stats.accesses x)) num_clusters) x).

Definition set_stats (per_data_space : list Stats.PerDataSpace) (s : Stats.t) : Stats.t :=
  {| Stats.per_data_space := per_data_space;
     Stats.slowdown := Stats.slowdown s;
     Stats.cycles := Stats.cycles s |}.

Definition ComputeAccesses (fuel : nat) (level : Level)
    (tile : CompoundDataMovementInfo) (mask : CompoundMask)
    (break_on_failure : bool) : outcome (EvalStatus * Level) :=
  let specs := specs_ level in
  let subnest := tiling.subnest (tile 0%nat) in
  (* 1. Collect stats. *)
  total_tile_size ← total_tile_size specs tile;
  stats ← for_each_data_space
             (fun pvi x =>
                a ← collect_stats fuel specs tile mask total_tile_size pvi;
                mret (set_accesses a x))
             (Stats.per_data_space (stats_ level));
  (* 2. Derive/validate architecture specs based on stats. *)
  let total_utilized_capacity := total_utilized_capacity stats in
  status ← check_capacity specs total_utilized_capacity;
  _ ← assert (IsSpecified (Specs.block_size specs));
  _ ← assert (IsSpecified (Specs.cluster_size specs));
  bits ← compute_addr_gen_bits specs total_utilized_capacity;
  let specs := Specs.set_addr_gen_bits bits specs in
  status ← check_instances specs stats status;
  stats ← for_each_data_space (compute_utilized_clusters specs) stats;
  mret ({| success := status.1; fail_reason := status.2 |},
        {| specs_ := specs;
           stats_ := set_stats stats (stats_ level);
           subnest_ := subnest;
           is_evaluated_ := status.1;
           network_read_DistributedMulticastSupported :=
             network_read_DistributedMulticastSupported level;
           network_update_WordBits := network_update_WordBits level |}).

(** ** ComputeBufferEnergy *)

(** [(a % b == 0) ? (a / b) : (a / b) + 1] *)
Definition vector_accesses_of (instance_accesses block_size : Z) : outcome Z :=
  r ← umod instance_accesses block_size;
  q ← udiv instance_accesses block_size;
  mret (if r =? 0 then q else u64 (q + 1)).

(** Lines 1016-1042: what one fine-grained action adds to
    [cluster_access_energy]. *)
Definition op_energy (specs : Specs.t) (t : DataMovementInfo)
    (instance_accesses instance_metadata_accesses : Z)
    (vector_accesses metadata_vector_accesses : Q) (op_name : string) : outcome Q :=
  if negb (found "metadata" op_name) && negb (found "count" op_name) then
    if negb (instance_accesses =? 0) then
      n ← at_ (tiling.fine_grained_accesses t) op_name;
      share ← fdiv (vector_accesses * dbl n) (dbl instance_accesses);
      e ← at_ (Specs.op_energy_map specs) op_name;
      mret (share * e)%Q
    else mret 0%Q
  else if negb (found "count" op_name) then
    if negb (instance_metadata_accesses =? 0) then
      n ← at_ (tiling.fine_grained_accesses t) op_name;
      share ← fdiv (metadata_vector_accesses * dbl n) (dbl instance_metadata_accesses);
      e ← at_ (Specs.op_energy_map specs) op_name;
      mret (share * e)%Q
    else mret 0%Q
  else
    n ← at_ (tiling.fine_grained_accesses t) op_name;
    e ← at_ (Specs.op_energy_map specs) op_name;
    mret (dbl n * e)%Q.

Fixpoint cluster_access_energy_from (specs : Specs.t) (t : DataMovementInfo)
    (instance_accesses instance_metadata_accesses : Z)
    (vector_accesses metadata_vector_accesses : Q)
    (ops : list string) (cluster_access_energy : Q) : outcome Q :=
  match ops with
  | [] => mret cluster_access_energy
  | op_name :: ops' =>
      e ← op_energy specs t instance_accesses instance_metadata_accesses
            vector_accesses metadata_vector_accesses op_name;
      cluster_access_energy_from specs t instance_accesses instance_metadata_accesses
        vector_accesses metadata_vector_accesses ops' (cluster_access_energy + e)%Q
  end.

(** [std::numeric_limits<unsigned>::max()] *)
Definition UINT_MAX : Z := 2 ^ 32 - 1.

(** Lines 1045-1065: the speculation cost and the discounted access
    energy. *)
Definition speculation (specs : Specs.t) (t : DataMovementInfo)
    (tile_confidence : Q) (parent_level_name : string)
    (cluster_access_energy : Q) : outcome (Z * Q) :=
  if negb (Qeq_bool tile_confidence 1) && negb (String.eqb parent_level_name "") then
    parent_read ← at_ (tiling.parent_level_op_energy t) "random_read";
    parent_block ← at_ (tiling.parent_level_simple_specs t) "block_size";
    parent_scalar_read_energy ← fdiv parent_read (dbl parent_block);
    child_read ← at_ (Specs.op_energy_map specs) "random_read";
    block_size ← Get (Specs.block_size specs);
    child_scalar_read_energy ← fdiv child_read (dbl block_size);
    ratio ← fdiv parent_scalar_read_energy child_scalar_read_energy;
    mret (u64 (ceil (cluster_access_energy * (1 - tile_confidence) * ratio)),
          (cluster_access_energy * tile_confidence)%Q)
  else mret (0, cluster_access_energy).

Definition set_energy (parent_level_name : string)
    (speculation_energy_cost energy energy_per_access : Q)
    (x : Stats.PerDataSpace) : Stats.PerDataSpace :=
  {| Stats.accesses := Stats.accesses x;
     Stats.utilized_clusters := Stats.utilized_clusters x;
     Stats.parent_level_name := parent_level_name;
     Stats.speculation_energy_cost := speculation_energy_cost;
     Stats.energy := energy;
     Stats.energy_per_access := energy_per_access;
     Stats.temporal_reduction_energy := Stats.temporal_reduction_energy x;
     Stats.addr_gen_energy := Stats.addr_gen_energy x;
     Stats.read_bandwidth := Stats.read_bandwidth x;
     Stats.write_bandwidth := Stats.write_bandwidth x |}.

(** Lines 989-1065 of the loop of [ComputeBufferEnergy]: the name of the
    parent level, the speculation cost and the access energy of a cluster,
    and the scalar accesses of an instance. *)
Definition cluster_energy (specs : Specs.t)
    (data_movement_info : CompoundDataMovementInfo) (pvi : nat)
    (x : Stats.PerDataSpace) : outcome (string * Z * Q * Z) :=
  let a := Stats.accesses x in
  let t := data_movement_info pvi in
  let instance_accesses := u64 (u64 (Stats.reads a + Stats.updates a) + Stats.fills a) in
  block_size ← Get (Specs.block_size specs);
  vector_accesses ← vector_accesses_of instance_accesses block_size;
  let instance_metadata_accesses :=
    u64 (u64 (Stats.metadata_reads a + Stats.metadata_fills a) + Stats.metadata_updates a) in
  metadata_vector_accesses ←
    vector_accesses_of instance_metadata_accesses (Specs.metadata_block_size specs);
  cluster_access_energy ←
    cluster_access_energy_from specs t instance_accesses instance_metadata_accesses
      (dbl vector_accesses) (dbl metadata_vector_accesses) storageOperationTypes 0%Q;
  let parent_level_name :=
    if negb (tiling.parent_level t =? UINT_MAX) then tiling.parent_level_name t else "" in
  '(cluster_speculation_energy_cost, cluster_access_energy) ←
    speculation specs t (Stats.tile_confidence a) parent_level_name cluster_access_energy;
  mret (parent_level_name, cluster_speculation_energy_cost, cluster_access_energy,
        instance_accesses).

(** Lines 1069-1083: the cost of a cluster spread over the instances that
    use it. *)
Definition spread_energy (parent_level_name : string)
    (cluster_speculation_energy_cost : Z) (cluster_access_energy : Q)
    (instance_accesses : Z) (x : Stats.PerDataSpace) : outcome Stats.PerDataSpace :=
  let a := Stats.accesses x in
  if 0 <? Stats.utilized_instances a then
    cluster_utilization ← fdiv (dbl (Stats.utilized_instances a))
                               (dbl (Stats.utilized_clusters x));
    speculation_energy_cost ← fdiv (dbl cluster_speculation_energy_cost) cluster_utilization;
    energy ← fdiv (cluster_access_energy + dbl cluster_speculation_energy_cost)
                  cluster_utilization;
    energy_per_access ← fdiv energy (dbl instance_accesses);
    mret (set_energy parent_level_name speculation_energy_cost energy energy_per_access x)
  else
    mret (set_energy parent_level_name (Stats.speculation_energy_cost x) 0 0 x).

(** The body of the loop of [ComputeBufferEnergy] (lines 989-1083). *)
Definition buffer_energy (specs : Specs.t)
    (data_movement_info : CompoundDataMovementInfo) (pvi : nat)
    (x : Stats.PerDataSpace) : outcome Stats.PerDataSpace :=
  '(parent_level_name, cluster_speculation_energy_cost, cluster_access_energy,
    instance_accesses) ← cluster_energy specs data_movement_info pvi x;
  spread_energy parent_level_name cluster_speculation_energy_cost cluster_access_energy
    instance_accesses x.

Definition ComputeBufferEnergy (level : Level)
    (data_movement_info : CompoundDataMovementInfo) : outcome (list Stats.PerDataSpace) :=
  for_each_data_space (buffer_energy (specs_ level) data_movement_info)
    (Stats.per_data_space (stats_ level)).

(** ** ComputeReductionEnergy and ComputeAddrGenEnergy *)

Definition set_temporal_reduction_energy (e : Q) (x : Stats.PerDataSpace)
  : Stats.PerDataSpace :=
  {| Stats.accesses := Stats.accesses x;
     Stats.utilized_clusters := Stats.utilized_clusters x;
     Stats.parent_level_name := Stats.parent_level_name x;
     Stats.speculation_energy_cost := Stats.speculation_energy_cost x;
     Stats.energy := Stats.energy x;
     Stats.energy_per_access := Stats.energy_per_access x;
     Stats.temporal_reduction_energy := e;
     Stats.addr_gen_energy := Stats.addr_gen_energy x;
     Stats.read_bandwidth := Stats.read_bandwidth x;
     Stats.write_bandwidth := Stats.write_bandwidth x |}.

Definition reduction_energy (specs : Specs.t) (network_update_WordBits : Z)
    (pvi : nat) (x : Stats.PerDataSpace) : outcome Stats.PerDataSpace :=
  mret (set_temporal_reduction_energy
          (if IsReadWriteDataSpace pvi
           then dbl (Stats.temporal_reductions (Stats.accesses x))
                * AdderEnergy (Specs.word_bits specs) network_update_WordBits
           else 0)%Q x).

Definition set_addr_gen_energy (e : Q) (x : Stats.PerDataSpace) : Stats.PerDataSpace :=
  {| Stats.accesses := Stats.accesses x;
     Stats.utilized_clusters := Stats.utilized_clusters x;
     Stats.parent_level_name := Stats.parent_level_name x;
     Stats.speculation_energy_cost := Stats.speculation_energy_cost x;
     Stats.energy := Stats.energy x;
     Stats.energy_per_access := Stats.energy_per_access x;
     Stats.temporal_reduction_energy := Stats.temporal_reduction_energy x;
     Stats.addr_gen_energy := e;
     Stats.read_bandwidth := Stats.read_bandwidth x;
     Stats.write_bandwidth := Stats.write_bandwidth x |}.

Definition addr_gen_energy_of (specs : Specs.t) (pvi : nat)
    (x : Stats.PerDataSpace) : outcome Stats.PerDataSpace :=
  if Qltb (Specs.addr_gen_energy specs) 0 then
    bits ← Get (Specs.addr_gen_bits specs);
    mret (set_addr_gen_energy
            (dbl (Stats.address_generations (Stats.accesses x)) * AdderEnergy bits bits)%Q x)
  else
    mret (set_addr_gen_energy
            (dbl (Stats.address_generations (Stats.accesses x))
             * Specs.addr_gen_energy specs)%Q x).

(** ** ComputePerformance *)

(** Step 1 and the two [std::accumulate] of step 2: the unconstrained
    bandwidth demand of the data spaces, summed. *)
Fixpoint total_unconstrained_from (accesses_of : Stats.Accesses -> Z)
    (compute_cycles : Z) (stats : list Stats.PerDataSpace)
    (n pvi : nat) (total : Q) : outcome Q :=
  match n with
  | O => mret total
  | S n' =>
      match stats !! pvi with
      | None => Fault OutOfRange
      | Some x =>
          b ← fdiv (dbl (accesses_of (Stats.accesses x))) (dbl compute_cycles);
          total_unconstrained_from accesses_of compute_cycles stats n' (S pvi) (total + b)%Q
      end
  end.

Definition total_read_accesses (a : Stats.Accesses) : Z := Stats.reads a.
Definition total_write_accesses (a : Stats.Accesses) : Z :=
  u64 (Stats.updates a + Stats.fills a).

(** [std::min (a, b)] is [(b < a) ? b : a]. *)
Definition std_min (a b : Q) : Q := if Qltb b a then b else a.

(** Step 2: the slowdown. *)
Definition bound_by (bandwidth : option Q) (total_unconstrained : Q) (slowdown : Q)
  : outcome Q :=
  match bandwidth with
  | Some b =>
      if Qltb b total_unconstrained then
        r ← fdiv b total_unconstrained;
        mret (std_min slowdown r)
      else mret slowdown
  | None => mret slowdown
  end.

Definition compute_slowdown (specs : Specs.t)
    (total_unconstrained_read_bandwidth total_unconstrained_write_bandwidth : Q)
  : outcome Q :=
  slowdown ← bound_by (Specs.read_bandwidth specs) total_unconstrained_read_bandwidth 1%Q;
  bound_by (Specs.write_bandwidth specs) total_unconstrained_write_bandwidth slowdown.

Definition set_bandwidth (r w : Q) (x : Stats.PerDataSpace) : Stats.PerDataSpace :=
  {| Stats.accesses := Stats.accesses x;
     Stats.utilized_clusters := Stats.utilized_clusters x;
     Stats.parent_level_name := Stats.parent_level_name x;
     Stats.speculation_energy_cost := Stats.speculation_energy_cost x;
     Stats.energy := Stats.energy x;
     Stats.energy_per_access := Stats.energy_per_access x;
     Stats.temporal_reduction_energy := Stats.temporal_reduction_energy x;
     Stats.addr_gen_energy := Stats.addr_gen_energy x;
     Stats.read_bandwidth := r;
     Stats.write_bandwidth := w |}.

(** Step 3, for one data space. *)
Definition real_bandwidth (compute_cycles : Z) (slowdown : Q) (pvi : nat)
    (x : Stats.PerDataSpace) : outcome Stats.PerDataSpace :=
  r ← fdiv (dbl (total_read_accesses (Stats.accesses x))) (dbl compute_cycles);
  w ← fdiv (dbl (total_write_accesses (Stats.accesses x))) (dbl compute_cycles);
  mret (set_bandwidth (slowdown * r) (slowdown * w) x).

(** Step 4: [std::uint64_t (ceil (compute_cycles / stats_.slowdown))]. *)
Definition compute_cycles_of (compute_cycles : Z) (slowdown : Q) : outcome Z :=
  q ← fdiv (dbl compute_cycles) slowdown;
  mret (u64 (ceil q)).

Definition ComputePerformance (specs : Specs.t) (stats : Stats.t) (compute_cycles : Z)
  : outcome Stats.t :=
  let per := Stats.per_data_space stats in
  total_unconstrained_read_bandwidth ←
    total_unconstrained_from total_read_accesses compute_cycles per NumDataSpaces 0%nat 0%Q;
  total_unconstrained_write_bandwidth ←
    total_unconstrained_from total_write_accesses compute_cycles per NumDataSpaces 0%nat 0%Q;
  slowdown ←
    compute_slowdown specs
      total_unconstrained_read_bandwidth total_unconstrained_write_bandwidth;
  per ← for_each_data_space (real_bandwidth compute_cycles slowdown) per;
  cycles ← compute_cycles_of compute_cycles slowdown;
  mret {| Stats.per_data_space := per; Stats.slowdown := slowdown; Stats.cycles := cycles |}.

(** ** Evaluate *)

Definition set_level_stats (stats : Stats.t) (level : Level) : Level :=
  {| specs_ := specs_ level;
     stats_ := stats;
     subnest_ := subnest_ level;
     is_evaluated_ := is_evaluated_ level;
     network_read_DistributedMulticastSupported :=
       network_read_DistributedMulticastSupported level;
     network_update_WordBits := network_update_WordBits level |}.

Definition Evaluate (fuel : nat) (level : Level)
    (tile : CompoundDataMovementInfo) (mask : CompoundMask)
    (compute_cycles : Z) (break_on_failure : bool) : outcome (EvalStatus * Level) :=
  '(eval_status, level) ← ComputeAccesses fuel level tile mask break_on_failure;
  if negb break_on_failure || success eval_status then
    per ← ComputeBufferEnergy level tile;
    per ← for_each_data_space
            (reduction_energy (specs_ level) (network_update_WordBits level)) per;
    per ← for_each_data_space (addr_gen_energy_of (specs_ level)) per;
    stats ← ComputePerformance (specs_ level) (set_stats per (stats_ level)) compute_cycles;
    mret (eval_status, set_level_stats stats level)
  else mret (eval_status, level).

(** ** PreEvaluationCheck *)

(** Lines 529-539: the capacity required by the data spaces of the mask;
    [workload] stands for [workload->GetDensity]. *)
Fixpoint required_capacity_from (working_set_sizes : nat -> Z) (mask : CompoundMask)
    (workload : nat -> problem.DataDensity) (n pvi : nat) (required_capacity : Z) : Z :=
  match n with
  | O => required_capacity
  | S n' =>
      required_capacity_from working_set_sizes mask workload n' (S pvi)
        (if mask pvi then
           let dense_working_set_size := working_set_sizes pvi in
           let sparse_working_set_size :=
             ceil (dbl dense_working_set_size
                   * problem.GetTileExpectedDensity (workload pvi) dense_working_set_size) in
           u64 (required_capacity + sparse_working_set_size)
         else required_capacity)
  end.

Definition PreEvaluationCheck (level : Level) (working_set_sizes : nat -> Z)
    (mask : CompoundMask) (workload : nat -> problem.DataDensity)
    (break_on_failure : bool) : outcome EvalStatus :=
  let specs := specs_ level in
  if IsSpecified (Specs.size specs) then
    effective_size ← Get (Specs.effective_size specs);
    available_capacity ←
      (if network_read_DistributedMulticastSupported level then
         instances ← Get (Specs.instances specs);
         mret (u64 (effective_size * instances))
       else mret effective_size);
    let required_capacity :=
      required_capacity_from working_set_sizes mask workload NumDataSpaces 0%nat 0 in
    if available_capacity <? required_capacity then
      mret {| success := false;
              fail_reason := [ExceedsBufferCapacity required_capacity available_capacity] |}
    else if Qltb (dbl required_capacity)
                 (dbl effective_size * Specs.min_utilization specs) then
      mret {| success := false;
              fail_reason := [LessThanMinimumUtilization required_capacity
                                (dbl effective_size * Specs.min_utilization specs)] |}
    else mret {| success := true; fail_reason := [] |}
  else mret {| success := true; fail_reason := [] |}.

(** ** Accessors *)




End Evaluator.

(** ** Building a level: ParseSpecs, ValidateTopology, PopulateEnergyPerOp *)

(** Arithmetic on [std::uint32_t] locals. *)
Definition u32 (z : Z) : Z := z mod 2 ^ 32.

(** Conversion of a [double] to [uint64_t]: the fraction is dropped, and
    the result has a value only when it is one of a [uint64_t]. *)
Definition to_uint64 (x : Q) : outcome Z :=
  if (0 <=? trunc x) && (trunc x <? 2 ^ 64) then Done (trunc x) else Fault Undefined.

(** A call that either returns or ends the process with [exit (status)]. *)
Inductive completion (A : Type) : Type :=
| Returns (a : A)
| Exits (status : Z).

Arguments Returns {A} a.
Arguments Exits {A} status.

Module config.

(** The configuration collaborator ([config::CompoundConfigNode], not among
    the sources): its queries are taken as [ParseSpecs] calls them.  A typed
    [lookupValue] either yields a value or fails and leaves the variable it
    was given as it was. *)
Record Settings : Type := {
  lookupValue_uint32 : string -> option Z;
  lookupValue_double : string -> option Q;
  lookupValue_string : string -> option string;
  exists_ : string -> bool
}.

(** A node, and the node [lookup ("attributes")] gives when
    [exists ("attributes")]. *)
Record CompoundConfigNode : Type := {
  settings : Settings;
  attributes : option Settings
}.

End config.

Module FullSpecs.

(** [BufferLevel::Specs] in full: the members the evaluation reads
    ([Specs.t]) and, beside them, the ones only the construction of a level
    reads or writes. *)
Record t : Type := {
  evaluated : Specs.t;
  name : option string;
  level_name : string;
  num_ports : Z;
  num_banks : Z;
  meshX : option Z;
  meshY : option Z;
  read_network_name : option string;
  fill_network_name : option string;
  drain_network_name : option string;
  update_network_name : option string;
  vector_access_energy : option Q;
  storage_area : option Q;
  ERT_entries : gmap string Q
}.

Definition set_evaluated (e : Specs.t) (s : t) : t :=
  {| evaluated := e; name := name s; level_name := level_name s;
     num_ports := num_ports s; num_banks := num_banks s;
     meshX := meshX s; meshY := meshY s;
     read_network_name := read_network_name s;
     fill_network_name := fill_network_name s;
     drain_network_name := drain_network_name s;
     update_network_name := update_network_name s;
     vector_access_energy := vector_access_energy s;
     storage_area := storage_area s; ERT_entries := ERT_entries s |}.

Definition set_mesh (x y : option Z) (s : t) : t :=
  {| evaluated := evaluated s; name := name s; level_name := level_name s;
     num_ports := num_ports s; num_banks := num_banks s;
     meshX := x; meshY := y;
     read_network_name := read_network_name s;
     fill_network_name := fill_network_name s;
     drain_network_name := drain_network_name s;
     update_network_name := update_network_name s;
     vector_access_energy := vector_access_energy s;
     storage_area := storage_area s; ERT_entries := ERT_entries s |}.

End FullSpecs.

Definition set_instances (instances : Z) (s : Specs.t) : Specs.t :=
  {| Specs.technology := Specs.technology s; Specs.size := Specs.size s;
     Specs.word_bits := Specs.word_bits s;
     Specs.addr_gen_bits := Specs.addr_gen_bits s;
     Specs.block_size := Specs.block_size s;
     Specs.metadata_block_size := Specs.metadata_block_size s;
     Specs.metadata_word_bits := Specs.metadata_word_bits s;
     Specs.cluster_size := Specs.cluster_size s;
     Specs.instances := Some instances;
     Specs.read_bandwidth := Specs.read_bandwidth s;
     Specs.write_bandwidth := Specs.write_bandwidth s;
     Specs.multiple_buffering := Specs.multiple_buffering s;
     Specs.effective_size := Specs.effective_size s;
     Specs.min_utilization := Specs.min_utilization s;
     Specs.addr_gen_energy := Specs.addr_gen_energy s;
     Specs.op_energy_map := Specs.op_energy_map s |}.

Definition set_op_energy_map (op_energy_map : gmap string Q) (s : Specs.t) : Specs.t :=
  {| Specs.technology := Specs.technology s; Specs.size := Specs.size s;
     Specs.word_bits := Specs.word_bits s;
     Specs.addr_gen_bits := Specs.addr_gen_bits s;
     Specs.block_size := Specs.block_size s;
     Specs.metadata_block_size := Specs.metadata_block_size s;
     Specs.metadata_word_bits := Specs.metadata_word_bits s;
     Specs.cluster_size := Specs.cluster_size s;
     Specs.instances := Specs.instances s;
     Specs.read_bandwidth := Specs.read_bandwidth s;
     Specs.write_bandwidth := Specs.write_bandwidth s;
     Specs.multiple_buffering := Specs.multiple_buffering s;
     Specs.effective_size := Specs.effective_size s;
     Specs.min_utilization := Specs.min_utilization s;
     Specs.addr_gen_energy := Specs.addr_gen_energy s;
     Specs.op_energy_map := op_energy_map |}.

(** *** ValidateTopology *)

(** Lines 380-443.  The error message goes to [std::cerr]; what remains of
    the error is [exit (1)]. *)
Definition ValidateTopology (specs : FullSpecs.t) : outcome (completion FullSpecs.t) :=
  let instances := Specs.instances (FullSpecs.evaluated specs) in
  if IsSpecified instances then
    if IsSpecified (FullSpecs.meshX specs) then
      if IsSpecified (FullSpecs.meshY specs) then
        (* All 3 are specified. *)
        meshX ← Get (FullSpecs.meshX specs);
        meshY ← Get (FullSpecs.meshY specs);
        instances ← Get instances;
        _ ← assert (u64 (meshX * meshY) =? instances);
        mret (Returns specs)
      else
        (* Instances and MeshX are specified. *)
        instances ← Get instances;
        meshX ← Get (FullSpecs.meshX specs);
        r ← umod instances meshX;
        _ ← assert (r =? 0);
        meshY ← udiv instances meshX;
        mret (Returns (FullSpecs.set_mesh (FullSpecs.meshX specs) (Some meshY) specs))
    else if IsSpecified (FullSpecs.meshY specs) then
      (* Instances and MeshY are specified. *)
      instances ← Get instances;
      meshY ← Get (FullSpecs.meshY specs);
      r ← umod instances meshY;
      _ ← assert (r =? 0);
      meshX ← udiv instances meshY;
      mret (Returns (FullSpecs.set_mesh (Some meshX) (FullSpecs.meshY specs) specs))
    else
      (* Only Instances is specified. *)
      instances ← Get instances;
      mret (Returns (FullSpecs.set_mesh (Some instances) (Some 1) specs))
  else if IsSpecified (FullSpecs.meshX specs) then
    if IsSpecified (FullSpecs.meshY specs) then
      (* MeshX and MeshY are specified. *)
      meshX ← Get (FullSpecs.meshX specs);
      meshY ← Get (FullSpecs.meshY specs);
      mret (Returns (FullSpecs.set_evaluated
                       (set_instances (u64 (meshX * meshY)) (FullSpecs.evaluated specs))
                       specs))
    else mret (Exits 1)
  else mret (Exits 1).

(** *** ParseSpecs *)

(** [a.lookupValue (n1, v) || a.lookupValue (n2, v) || ...]: the first
    lookup that succeeds sets [v]. *)
Fixpoint lookup_first {A : Type} (lookupValue : string -> option A)
    (names : list string) : option A :=
  match names with
  | [] => None
  | n :: names' =>
      match lookupValue n with
      | Some v => Some v
      | None => lookup_first lookupValue names'
      end
  end.

Section Parsing.

(** [Specs::kDefaultWordBits], [config::parseName] and the technology
    model [pat::DRAMEnergy], [pat::SRAMEnergy], [pat::SRAMArea]. *)
Variable kDefaultWordBits : Z.
Variable parseName : string -> string.
Variable DRAMEnergy : Z -> Q.
Variable SRAMEnergy : Z -> Z -> Z -> Z -> Q.
Variable SRAMArea : Z -> Z -> Z -> Z -> Q.

(** Lines 129-147. *)
Definition parse_cluster_size (buffer : config.Settings) (word_bits block_size : Z)
  : outcome Z :=
  match config.lookupValue_uint32 buffer "cluster-size" with
  | Some cluster_size => mret cluster_size
  | None =>
      match lookup_first (config.lookupValue_uint32 buffer) ["width"; "memory_width"] with
      | Some width =>
          let word_bits := u32 word_bits in
          let block_size := u32 block_size in
          r ← umod width (u32 (word_bits * block_size));
          _ ← assert (r =? 0);
          udiv width (u32 (word_bits * block_size))
      | None => mret 1
      end
  end.

(** Lines 149-167. *)
Definition parse_size (buffer : config.Settings) (word_bits block_size : Z)
  : outcome (option Z) :=
  match config.lookupValue_uint32 buffer "entries" with
  | Some size =>
      _ ← assert (negb (config.exists_ buffer "sizeKB"));
      mret (Some size)
  | None =>
      match lookup_first (config.lookupValue_uint32 buffer) ["depth"; "memory_depth"] with
      | Some size =>
          _ ← assert (negb (config.exists_ buffer "sizeKB"));
          _ ← assert (negb (config.exists_ buffer "entries"));
          mret (Some (u64 (size * block_size)))
      | None =>
          match config.lookupValue_uint32 buffer "sizeKB" with
          | Some size =>
              q ← udiv (u32 (u32 (size * 1024) * 8)) word_bits;
              mret (Some q)
          | None => mret None
          end
      end
  end.

(** Lines 170-182. *)
Definition parse_technology (buffer : config.Settings) (className : string) : Technology :=
  let technology := SRAM in
  let technology := if String.eqb className "DRAM" then DRAM else technology in
  let technology := if found "DRAM" className then DRAM else technology in
  match config.lookupValue_string buffer "technology" with
  | Some t => if String.eqb t "DRAM" then DRAM else technology
  | None => technology
  end.

(** Lines 184-197. *)
Definition parse_num_ports (buffer : config.Settings) : outcome Z :=
  match config.lookupValue_uint32 buffer "num-ports" with
  | Some num_ports =>
      if num_ports =? 1 then mret 1
      else _ ← assert (num_ports =? 2); mret 2
  | None => mret 2
  end.

(** Lines 207-226: one direction of the bandwidth. *)
Definition parse_bandwidth (buffer : config.Settings) (direction : string) : option Q :=
  let from_shared := (fun bandwidth => bandwidth / 2)%Q <$>
                       config.lookupValue_double buffer "bandwidth" in
  match config.lookupValue_double buffer direction with
  | Some bandwidth => Some bandwidth
  | None => from_shared
  end.

(** Lines 239-243. *)
Definition parse_effective_size (size : option Z) (multiple_buffering : Q)
  : outcome (option Z) :=
  if IsSpecified size then
    size ← Get size;
    q ← fdiv (dbl size) multiple_buffering;
    e ← to_uint64 (dbl (Qfloor q));
    mret (Some e)
  else mret None.

(** Lines 308-345, before the overrides. *)
Definition pat_energy_area (technology : Technology) (size : option Z)
    (word_bits block_size cluster_size num_banks num_ports : Z) : outcome (Q * Q) :=
  match technology with
  | DRAM =>
      _ ← assert (cluster_size =? 1);
      mret (DRAMEnergy (u64 (word_bits * block_size)), 0%Q)
  | SRAM =>
      tmp_entries ← Get size;
      if tmp_entries =? 0 then mret (0%Q, 0%Q)
      else
        let width := u64 (u64 (word_bits * block_size) * cluster_size) in
        r ← umod tmp_entries block_size;
        q ← udiv tmp_entries block_size;
        let height := if r =? 0 then q else u64 (q + 1) in
        tmp_access_energy ← fdiv (SRAMEnergy height width num_banks num_ports)
                                 (dbl cluster_size);
        tmp_storage_area ← fdiv (SRAMArea height width num_banks num_ports)
                                (dbl cluster_size);
        mret (tmp_access_energy, tmp_storage_area)
  end.

Definition ParseSpecs (level : config.CompoundConfigNode) (n_elements : Z)
  : outcome (completion FullSpecs.t) :=
  (* Name. *)
  let name := parseName <$> config.lookupValue_string (config.settings level) "name" in
  let className :=
    match config.attributes level with
    | Some _ => default "" (config.lookupValue_string (config.settings level) "class")
    | None => ""
    end in
  let buffer := default (config.settings level) (config.attributes level) in
  (* Word Bits. *)
  let word_bits :=
    default kDefaultWordBits
      (lookup_first (config.lookupValue_uint32 buffer)
         ["word-bits"; "word_width"; "datawidth"]) in
  (* Block size: the local variable is set only by a lookup that succeeds. *)
  let block_size_local :=
    lookup_first (config.lookupValue_uint32 buffer) ["block-size"; "n_words"] in
  let block_size := default 1 block_size_local in
  (* MetaData Block size: line 115 assigns the local [block_size]. *)
  metadata_block_size ←
    match config.lookupValue_uint32 buffer "metadata-block-size" with
    | Some _ =>
        match block_size_local with
        | Some b => mret b
        | None => Fault Undefined
        end
    | None => mret 1
    end;
  (* Metadata data width. *)
  let metadata_word_bits :=
    default 0 (config.lookupValue_uint32 buffer "metadata_datawidth") in
  (* Cluster size. *)
  cluster_size ← parse_cluster_size buffer word_bits block_size;
  (* Size. *)
  size ← parse_size buffer word_bits block_size;
  (* Technology. *)
  let technology := parse_technology buffer className in
  (* SRAM Type. *)
  num_ports ← parse_num_ports buffer;
  (* Number of Banks. *)
  let num_banks := default 2 (config.lookupValue_uint32 buffer "num-banks") in
  (* Bandwidth. *)
  let read_bandwidth := parse_bandwidth buffer "read_bandwidth" in
  let write_bandwidth := parse_bandwidth buffer "write_bandwidth" in
  (* Multiple-buffering factor. *)
  let multiple_buffering :=
    default 1%Q (config.lookupValue_double buffer "multiple-buffering") in
  effective_size ← parse_effective_size size multiple_buffering;
  (* Minimum utilization factor. *)
  let min_utilization :=
    default 0%Q (config.lookupValue_double buffer "min-utilization") in
  _ ← (if negb (Qeq_bool min_utilization 0) then assert (IsSpecified effective_size)
       else mret tt);
  (* Instances. *)
  let instances := default n_elements (config.lookupValue_uint32 buffer "instances") in
  (* Vector Access Energy. *)
  '(tmp_access_energy, tmp_storage_area) ←
    pat_energy_area technology size word_bits block_size cluster_size num_banks num_ports;
  let tmp_access_energy :=
    default tmp_access_energy (config.lookupValue_double buffer "vector-access-energy") in
  let tmp_addr_gen_energy :=
    default (- (1 # 10))%Q (config.lookupValue_double buffer "addr-gen-energy") in
  let tmp_cluster_area := default 0%Q (config.lookupValue_double buffer "cluster-area") in
  tmp_storage_area ←
    (if Qltb 0 tmp_cluster_area then fdiv tmp_cluster_area (dbl cluster_size)
     else mret tmp_storage_area);
  level_name ← Get name;
  ValidateTopology
    {| FullSpecs.evaluated :=
         {| Specs.technology := technology;
            Specs.size := size;
            Specs.word_bits := word_bits;
            Specs.addr_gen_bits := None;
            Specs.block_size := Some block_size;
            Specs.metadata_block_size := metadata_block_size;
            Specs.metadata_word_bits := metadata_word_bits;
            Specs.cluster_size := Some cluster_size;
            Specs.instances := Some instances;
            Specs.read_bandwidth := read_bandwidth;
            Specs.write_bandwidth := write_bandwidth;
            Specs.multiple_buffering := multiple_buffering;
            Specs.effective_size := effective_size;
            Specs.min_utilization := min_utilization;
            Specs.addr_gen_energy := tmp_addr_gen_energy;
            Specs.op_energy_map := ∅ |};
       FullSpecs.name := name;
       FullSpecs.level_name := level_name;
       FullSpecs.num_ports := num_ports;
       FullSpecs.num_banks := num_banks;
       FullSpecs.meshX := config.lookupValue_uint32 buffer "meshX";
       FullSpecs.meshY := config.lookupValue_uint32 buffer "meshY";
       FullSpecs.read_network_name := config.lookupValue_string buffer "network_read";
       FullSpecs.fill_network_name := config.lookupValue_string buffer "network_fill";
       FullSpecs.drain_network_name := config.lookupValue_string buffer "network_drain";
       FullSpecs.update_network_name := config.lookupValue_string buffer "network_update";
       FullSpecs.vector_access_energy := Some tmp_access_energy;
       FullSpecs.storage_area := Some tmp_storage_area;
       FullSpecs.ERT_entries := ∅ |}.

End Parsing.

(** *** PopulateEnergyPerOp *)

Section EnergyPerOp.

(** [tiling::storageOperationTypes] and [model::storageOperationMappings]. *)
Variable storageOperationTypes : list string.
Variable storageOperationMappings : gmap string (list string).

(** Lines 478-483: the first of the action names that has an entry in the
    energy reference table gives the energy. *)
Fixpoint ert_energy (ERT_entries : gmap string Q) (ert_action_names : list string)
    (ert_energy_per_op : Q) (ert_energy_found : bool) : Q :=
  match ert_action_names with
  | [] => ert_energy_per_op
  | action :: ert_action_names' =>
      match ERT_entries !! action with
      | Some e =>
          if negb ert_energy_found
          then ert_energy ERT_entries ert_action_names' e true
          else ert_energy ERT_entries ert_action_names' ert_energy_per_op ert_energy_found
      | None =>
          ert_energy ERT_entries ert_action_names' ert_energy_per_op ert_energy_found
      end
  end.

(** Lines 465-467: the operations whose energy, without an entry in the
    table, is the vector access energy. *)
Definition regular_action (op_name : string) : bool :=
  found "random_read" op_name || found "random_fill" op_name
  || found "random_update" op_name.

(** The body of the loop over the operations (lines 460-485). *)
Definition energy_per_op (specs : FullSpecs.t) (op_id : nat)
    (op_energy_map : gmap string Q) : outcome (gmap string Q) :=
  op_name ← match storageOperationTypes !! op_id with
            | Some op_name => mret op_name
            | None => Fault OutOfRange
            end;
  ert_energy_per_op ←
    (if regular_action op_name then Get (FullSpecs.vector_access_energy specs)
     else mret 0%Q);
  ert_action_names ← at_ storageOperationMappings op_name;
  mret (<[op_name := ert_energy (FullSpecs.ERT_entries specs) ert_action_names
                       ert_energy_per_op false]> op_energy_map).

Fixpoint energy_per_op_from (specs : FullSpecs.t) (n op_id : nat)
    (op_energy_map : gmap string Q) : outcome (gmap string Q) :=
  match n with
  | O => mret op_energy_map
  | S n' =>
      op_energy_map ← energy_per_op specs op_id op_energy_map;
      energy_per_op_from specs n' (S op_id) op_energy_map
  end.

(** The level's [specs_] and its flag [populate_energy_per_op]. *)
Definition PopulateEnergyPerOp (num_ops : nat) (specs : FullSpecs.t)
    (populate_energy_per_op : bool) : outcome (FullSpecs.t * bool) :=
  if negb populate_energy_per_op then
    op_energy_map ← energy_per_op_from specs num_ops 0%nat
                      (Specs.op_energy_map (FullSpecs.evaluated specs));
    mret (FullSpecs.set_evaluated
            (set_op_energy_map op_energy_map (FullSpecs.evaluated specs)) specs,
          true)
  else mret (specs, populate_energy_per_op).

End EnergyPerOp.

(** * Notions used in the statements *)

(** A loop body that leaves the access counts of the entry alone. *)
Definition preserves_accesses
    (body : nat -> Stats.PerDataSpace -> outcome Stats.PerDataSpace) : Prop :=
  forall i x x', body i x = Done x' -> Stats.accesses x' = Stats.accesses x.

(** The required capacity in the words of the specification: the sum, over
    the data spaces of the mask, of
    [ceil (working_set_size * expected_density (working_set_size))]. *)
Definition sparse_working_set_size (working_set_sizes : nat -> Z)
    (workload : nat -> problem.DataDensity) (pvi : nat) : Z :=
  ceil (dbl (working_set_sizes pvi)
        * problem.GetTileExpectedDensity (workload pvi) (working_set_sizes pvi)).






(** The seventeen fine-grained storage actions that [ComputeAccesses]
    reads by name, as [tiling::storageOperationTypes]. *)
Definition storage_operations : list string :=
  ["random_read"; "random_fill"; "random_update";
   "gated_read"; "gated_fill"; "gated_update";
   "skipped_read"; "skipped_fill"; "skipped_update";
   "metadata_read"; "metadata_fill"; "metadata_update";
   "gated_metadata_read"; "gated_metadata_fill"; "gated_metadata_update";
   "decompression_count"; "compression_count"].









(** The energy [PopulateEnergyPerOp] gives an operation: that of the
    first of its action names with an entry in the energy reference table,
    and otherwise the vector access energy for a regular action and zero
    for any other. *)
Definition energy_of (storageOperationMappings : gmap string (list string))
    (specs : FullSpecs.t) (op_name : string) : Q :=
  default (if regular_action op_name
           then default 0%Q (FullSpecs.vector_access_energy specs) else 0%Q)
    (lookup_first (fun action => FullSpecs.ERT_entries specs !! action)
       (default [] (storageOperationMappings !! op_name))).

(** * Concrete levels, tiles and density models

    The inputs at which the properties below are exercised. *)

(** Action counts: the three random actions as given, every other action
    zero. *)
Definition action_counts (random_read random_fill random_update : Z) : gmap string Z :=
  <["random_read" := random_read]>
    (<["random_fill" := random_fill]>
       (<["random_update" := random_update]>
          (list_to_map (map (fun op => (op, 0)) storage_operations)))).

(** One energy unit for each random action, nothing for the others. *)
Definition unit_energy : gmap string Q :=
  <["random_read" := 1%Q]>
    (<["random_fill" := 1%Q]>
       (<["random_update" := 1%Q]>
          (list_to_map (map (fun op => (op, 0%Q)) storage_operations)))).

Definition adder_energy (a b : Z) : Q := dbl (a + b) / 100.

(** A dense tensor: density one at every confidence. *)
Definition dense : problem.DataDensity :=
  {| problem.user_defined_knob := false;
     problem.GetUserDefinedConfidence := 1;
     problem.GetTileExpectedDensity := fun _ => 1%Q;
     problem.GetTileConfidence := fun _ _ => 1%Q;
     problem.GetTileDensityByConfidence := fun _ _ _ => 1%Q |}.

(** A level of [entries] words of eight bits with metadata words of
    [metadata_bits] bits, block size one, one instance, the given bandwidth
    caps and floor on the utilization, and every other attribute at the
    default [ParseSpecs] gives it. *)
Definition level_specs (entries metadata_bits : Z)
    (read_cap write_cap : option Q) (minimum : Q) : Specs.t :=
  {| Specs.technology := SRAM;
     Specs.size := Some entries;
     Specs.word_bits := 8;
     Specs.addr_gen_bits := None;
     Specs.block_size := Some 1;
     Specs.metadata_block_size := 1;
     Specs.metadata_word_bits := metadata_bits;
     Specs.cluster_size := Some 1;
     Specs.instances := Some 1;
     Specs.read_bandwidth := read_cap;
     Specs.write_bandwidth := write_cap;
     Specs.multiple_buffering := 1;
     Specs.effective_size := Some entries;
     Specs.min_utilization := minimum;
     Specs.addr_gen_energy := - (1 # 10);
     Specs.op_energy_map := unit_energy |}.

Definition sram (entries : Z) : Specs.t := level_specs entries 0 None None 0.

(** Statistics of a data space read [reads] times, updated [updates]
    times and filled [fills] times; everything else zero. *)
Definition accesses_of (reads updates fills : Z) : Stats.Accesses :=
  {| Stats.keep := false; Stats.partition_size := 0; Stats.tile_size := 0;
     Stats.tile_confidence := 0; Stats.compressed_tile_size := 0;
     Stats.metadata_tile_size := 0; Stats.tile_max_density := 0;
     Stats.utilized_capacity := 0; Stats.utilized_instances := 0;
     Stats.reads := reads; Stats.updates := updates; Stats.fills := fills;
     Stats.temporal_reductions := 0; Stats.address_generations := 0;
     Stats.metadata_reads := 0; Stats.metadata_fills := 0; Stats.metadata_updates := 0;
     Stats.gated_reads := 0; Stats.skipped_reads := 0; Stats.random_reads := 0;
     Stats.gated_fills := 0; Stats.skipped_fills := 0; Stats.random_fills := 0;
     Stats.random_updates := 0; Stats.gated_updates := 0; Stats.skipped_updates := 0;
     Stats.random_metadata_reads := 0; Stats.gated_metadata_reads := 0;
     Stats.random_metadata_fills := 0; Stats.gated_metadata_fills := 0;
     Stats.random_metadata_updates := 0; Stats.gated_metadata_updates := 0;
     Stats.decompression_counts := 0; Stats.compression_counts := 0 |}.

Definition no_accesses : Stats.Accesses := accesses_of 0 0 0.

Definition no_stats : Stats.PerDataSpace :=
  {| Stats.accesses := no_accesses;
     Stats.utilized_clusters := 0;
     Stats.parent_level_name := "";
     Stats.speculation_energy_cost := 0;
     Stats.energy := 0;
     Stats.energy_per_access := 0;
     Stats.temporal_reduction_energy := 0;
     Stats.addr_gen_energy := 0;
     Stats.read_bandwidth := 0;
     Stats.write_bandwidth := 0 |}.

(** A level that has not been evaluated yet, for [n] data spaces. *)
Definition new_level (specs : Specs.t) (n : nat) : BufferLevel unit :=
  {| specs_ := specs;
     stats_ := {| Stats.per_data_space := replicate n no_stats;
                  Stats.slowdown := 0; Stats.cycles := 0 |};
     subnest_ := tt;
     is_evaluated_ := false;
     network_read_DistributedMulticastSupported := false;
     network_update_WordBits := 8 |}.

(** A tile of [elements] words with the given density model, compression
    flag and metadata format, read [accesses] times and filled once per
    word, with no parent level. *)
Definition tile_of (elements accesses : Z) (density : problem.DataDensity)
    (compressed : bool) (format : string) : tiling.DataMovementInfo unit :=
  {| tiling.size := elements;
     tiling.partition_size := 0;
     tiling.compressed := compressed;
     tiling.metadata_format := format;
     tiling.tile_density := density;
     tiling.dense_rank1_fills := 0;
     tiling.dense_rank0_fills := 0;
     tiling.replication_factor := 1;
     tiling.content_accesses := accesses;
     tiling.reads := accesses;
     tiling.updates := 0;
     tiling.fills := elements;
     tiling.temporal_reductions := 0;
     tiling.metadata_reads := 0;
     tiling.metadata_fills := 0;
     tiling.metadata_updates := 0;
     tiling.fine_grained_accesses := action_counts accesses elements 0;
     tiling.parent_level := UINT_MAX;
     tiling.parent_level_name := "";
     tiling.parent_level_op_energy := ∅;
     tiling.parent_level_simple_specs := ∅;
     tiling.subnest := tt |}.

(** The scenario of one read-only data space on a level of 65536 words. *)
Definition read_only (pvi : nat) : bool := false.
Definition all_kept (pvi : nat) : bool := true.
Definition dense_tile (elements : Z) (pvi : nat) : tiling.DataMovementInfo unit :=
  tile_of elements elements dense false "none".










(** A level of [entries] words of eight bits whose metadata words have four
    bits. *)
Definition narrow_metadata (entries : Z) : Specs.t := level_specs entries 4 None None 0.


(** A descriptor of an empty tile that still reports five content
    accesses. *)
Definition empty_but_accessed (pvi : nat) : tiling.DataMovementInfo unit :=
  tile_of 0 5 dense false "none".





(** A density model under which the loop accepts, on a level of 100 words
    with four-bit metadata words, a candidate of 67 words of data and 67
    words of run-length metadata. *)
Definition uneven : problem.DataDensity :=
  {| problem.user_defined_knob := false;
     problem.GetUserDefinedConfidence := 1;
     problem.GetTileExpectedDensity := fun _ => (1 # 10)%Q;
     problem.GetTileConfidence := fun _ buffer_size =>
       if buffer_size <? 90 then (1 # 2)%Q
       else if buffer_size <? 95 then (3 # 4)%Q else 1%Q;
     problem.GetTileDensityByConfidence := fun _ _ buffer_size =>
       match buffer_size with
       | Some b => if b <? 90 then (1 # 5)%Q else if b <? 95 then (67 # 100)%Q else 1%Q
       | None => 1%Q
       end |}.

Definition uneven_tile (pvi : nat) : tiling.DataMovementInfo unit :=
  tile_of 100 100 uneven true "RLE".

(** A list of settings as a lookup. *)
Definition lookup_in {A : Type} (entries : list (string * A)) (key : string) : option A :=
  match find (fun entry => String.eqb key (fst entry)) entries with
  | Some entry => Some (snd entry)
  | None => None
  end.

(** The settings of a node given by its unsigned, floating-point and string
    entries. *)
Definition settings_of (uint32s : list (string * Z)) (doubles : list (string * Q))
    (strings : list (string * string)) : config.Settings :=
  {| config.lookupValue_uint32 := lookup_in uint32s;
     config.lookupValue_double := lookup_in doubles;
     config.lookupValue_string := lookup_in strings;
     config.exists_ := fun key =>
       existsb (String.eqb key) (map fst uint32s ++ map fst doubles ++ map fst strings) |}.

(** A level described by a name and a number of entries only. *)
Definition minimal (name : string) (entries : Z) : config.CompoundConfigNode :=
  {| config.settings := settings_of [("entries", entries)] [] [("name", name)];
     config.attributes := None |}.

(** A level that differs from [specs] in its instance count and its
    cluster size. *)
Definition arranged (instances : option Z) (cluster_size : Z) (specs : Specs.t) : Specs.t :=
  {| Specs.technology := Specs.technology specs; Specs.size := Specs.size specs;
     Specs.word_bits := Specs.word_bits specs;
     Specs.addr_gen_bits := Specs.addr_gen_bits specs;
     Specs.block_size := Specs.block_size specs;
     Specs.metadata_block_size := Specs.metadata_block_size specs;
     Specs.metadata_word_bits := Specs.metadata_word_bits specs;
     Specs.cluster_size := Some cluster_size;
     Specs.instances := instances;
     Specs.read_bandwidth := Specs.read_bandwidth specs;
     Specs.write_bandwidth := Specs.write_bandwidth specs;
     Specs.multiple_buffering := Specs.multiple_buffering specs;
     Specs.effective_size := Specs.effective_size specs;
     Specs.min_utilization := Specs.min_utilization specs;
     Specs.addr_gen_energy := Specs.addr_gen_energy specs;
     Specs.op_energy_map := Specs.op_energy_map specs |}.

(** The full specification of a level of 64 words named "Buffer", with the
    given instance count, mesh and energy reference table, and a vector
    access energy of five. *)
Definition described (instances meshX meshY : option Z) (ERT_entries : gmap string Q)
  : FullSpecs.t :=
  {| FullSpecs.evaluated := arranged instances 1 (sram 64);
     FullSpecs.name := Some "Buffer";
     FullSpecs.level_name := "Buffer";
     FullSpecs.num_ports := 2;
     FullSpecs.num_banks := 2;
     FullSpecs.meshX := meshX;
     FullSpecs.meshY := meshY;
     FullSpecs.read_network_name := None;
     FullSpecs.fill_network_name := None;
     FullSpecs.drain_network_name := None;
     FullSpecs.update_network_name := None;
     FullSpecs.vector_access_energy := Some 5%Q;
     FullSpecs.storage_area := Some 0%Q;
     FullSpecs.ERT_entries := ERT_entries |}.

(** A technology model in which every access costs one unit and every
    array takes ten units of area. *)
Definition dram_energy (width : Z) : Q := 1.
Definition sram_energy (height width num_banks num_ports : Z) : Q := 1.
Definition sram_area (height width num_banks num_ports : Z) : Q := 10.

(** A level of sixteen rows of four words, 128 bits wide, double buffered,
    with eight instances in rows of four, that asks for a metadata block
    size of two. *)
Definition banked : config.CompoundConfigNode :=
  {| config.settings :=
       settings_of
         [("depth", 16); ("block-size", 4); ("width", 128);
          ("metadata-block-size", 2); ("instances", 8); ("meshX", 4)]
         [("multiple-buffering", 2%Q)]
         [("name", "Buffer")];
     config.attributes := None |}.

(** Each storage operation looked up under its own name in the energy
    reference table. *)
Definition own_names : gmap string (list string) :=
  list_to_map (map (fun op_name => (op_name, [op_name])) storage_operations).



(** * Properties *)

(** ** Reasoning about outcomes *)

Lemma bind_Done {A B : Type} (m : outcome A) (k : A -> outcome B) (b : B) :
  (x ← m; k x) = Done b <-> exists a, m = Done a /\ k a = Done b.
Proof.
  destruct m as [a|f]; simpl; split.
  - intros H. exists a. split; [reflexivity | exact H].
  - intros (a' & Ha & Hk). injection Ha as ->. exact Hk.
  - discriminate.
  - intros (a' & Ha & _). discriminate.
Qed.

Lemma Done_bind {A B : Type} (a : A) (k : A -> outcome B) : (x ← Done a; k x) = k a.
Proof. reflexivity. Qed.

Lemma assert_Done (b : bool) (u : unit) : assert b = Done u <-> b = true.
Proof. destruct b, u; simpl; split; congruence. Qed.

Ltac inv_outcome :=
  repeat match goal with
  | H : (mbind _ _) = Done _ |- _ =>
      apply bind_Done in H; destruct H as (? & ? & H)
  | H : mret _ = Done _ |- _ => injection H as H
  | H : Done _ = Done _ |- _ => injection H as H
  | H : assert _ = Done _ |- _ => apply assert_Done in H
  | H : Fault _ = Done _ |- _ => discriminate H
  end.

(** ** Loops over the data spaces *)

Section ForEach.
Implicit Types (body : nat -> Stats.PerDataSpace -> outcome Stats.PerDataSpace).
Implicit Types (l : list Stats.PerDataSpace).

Lemma for_each_from_S body n pvi l :
  for_each_from body (S n) pvi l =
  match l !! pvi with
  | None => Fault OutOfRange
  | Some x => x' ← body pvi x; for_each_from body n (S pvi) (<[pvi := x']> l)
  end.
Proof. reflexivity. Qed.

Lemma for_each_from_length body n : forall pvi l l',
  for_each_from body n pvi l = Done l' -> length l' = length l.
Proof.
  induction n as [|n IH]; intros pvi l l' H.
  - simpl in H. inv_outcome. by subst.
  - rewrite for_each_from_S in H. destruct (l !! pvi) as [x|]; [|discriminate].
    inv_outcome. apply IH in H. by rewrite length_insert in H.
Qed.

Lemma for_each_from_outside body n : forall pvi l l' i,
  for_each_from body n pvi l = Done l' ->
  (i < pvi \/ pvi + n <= i)%nat -> l' !! i = l !! i.
Proof.
  induction n as [|n IH]; intros pvi l l' i H Hi.
  - simpl in H. inv_outcome. by subst.
  - rewrite for_each_from_S in H. destruct (l !! pvi) as [x|]; [|discriminate].
    inv_outcome. rewrite (IH _ _ _ i H) by lia.
    apply list_lookup_insert_ne. lia.
Qed.

Lemma for_each_from_inside body n : forall pvi l l' i,
  for_each_from body n pvi l = Done l' ->
  (pvi <= i < pvi + n)%nat ->
  exists x x', l !! i = Some x /\ body i x = Done x' /\ l' !! i = Some x'.
Proof.
  induction n as [|n IH]; intros pvi l l' i H Hi; [lia|].
  rewrite for_each_from_S in H. destruct (l !! pvi) as [x|] eqn:Hx; [|discriminate].
  inv_outcome. rename x0 into x'. rename H0 into Hb.
  destruct (decide (i = pvi)) as [->|Hne].
  - exists x, x'. split; [done|]. split; [done|].
    rewrite (for_each_from_outside _ _ _ _ _ pvi H) by lia.
    apply list_lookup_insert_eq. by eapply lookup_lt_Some.
  - destruct (IH _ _ _ i H) as (y & y' & Hy & Hby & Hy'); [lia|].
    exists y, y'. rewrite list_lookup_insert_ne in Hy by lia. done.
Qed.



(** The first body that stops the run decides the fault of the loop. *)
Lemma for_each_from_fault body n f : forall pvi l i,
  (pvi <= i < pvi + n)%nat -> (i < length l)%nat ->
  (forall j x, (pvi <= j < i)%nat -> exists x', body j x = Done x') ->
  (forall x, body i x = Fault f) ->
  for_each_from body n pvi l = Fault f.
Proof.
  induction n as [|n IH]; intros pvi l i Hi Hlen Hbefore Hat; [lia|].
  rewrite for_each_from_S.
  destruct (lookup_lt_is_Some_2 l pvi) as [x Hx]; [lia|]. rewrite Hx.
  destruct (decide (i = pvi)) as [->|Hne].
  - by rewrite Hat.
  - destruct (Hbefore pvi x) as [x' Hx']; [lia|]. rewrite Hx'. simpl.
    apply (IH _ _ i); [lia | by rewrite length_insert | | done].
    intros j y Hj. apply Hbefore. lia.
Qed.

End ForEach.

(** ** The access pass *)

Section AccessProperties.
Context {Subnest : Type}.
Variable NumDataSpaces : nat.
Variable IsReadWriteDataSpace : nat -> bool.
Variable storageOperationTypes : list string.
Variable AdderEnergy : Z -> Z -> Q.
Variable FIXED_DRAM_SIZE_IF_UNSPECIFIED : bool.

Implicit Types (level : BufferLevel Subnest).
Implicit Types (tile : nat -> tiling.DataMovementInfo Subnest).
Implicit Types (t : tiling.DataMovementInfo Subnest).

(** [ComputeAccesses] returns exactly when each of its steps does. *)
Lemma ComputeAccesses_Done fuel level tile mask bof status level' :
  ComputeAccesses NumDataSpaces IsReadWriteDataSpace FIXED_DRAM_SIZE_IF_UNSPECIFIED
    fuel level tile mask bof = Done (status, level') <->
  exists T perA st0 bits st1 perB,
    total_tile_size NumDataSpaces (specs_ level) tile = Done T /\
    for_each_data_space NumDataSpaces
      (fun pvi x =>
         a ← collect_stats IsReadWriteDataSpace fuel (specs_ level) tile mask T pvi;
         mret (set_accesses a x))
      (Stats.per_data_space (stats_ level)) = Done perA /\
    check_capacity (specs_ level) (total_utilized_capacity perA) = Done st0 /\
    IsSpecified (Specs.block_size (specs_ level)) = true /\
    IsSpecified (Specs.cluster_size (specs_ level)) = true /\
    compute_addr_gen_bits FIXED_DRAM_SIZE_IF_UNSPECIFIED (specs_ level)
      (total_utilized_capacity perA) = Done bits /\
    check_instances (Specs.set_addr_gen_bits bits (specs_ level)) perA st0 = Done st1 /\
    for_each_data_space NumDataSpaces
      (compute_utilized_clusters (Specs.set_addr_gen_bits bits (specs_ level)))
      perA = Done perB /\
    status = {| success := st1.1; fail_reason := st1.2 |} /\
    level' = {| specs_ := Specs.set_addr_gen_bits bits (specs_ level);
                stats_ := set_stats perB (stats_ level);
                subnest_ := tiling.subnest (tile 0%nat);
                is_evaluated_ := st1.1;
                network_read_DistributedMulticastSupported :=
                  network_read_DistributedMulticastSupported level;
                network_update_WordBits := network_update_WordBits level |}.
Proof.
  unfold ComputeAccesses. split.
  - intros H. inv_outcome. subst.
    eexists _, _, _, _, _, _. repeat split; eassumption.
  - intros (T & perA & st0 & bits & st1 & perB
            & HT & HA & Hcap & Hblock & Hcluster & Hbits & Hinst & HB & -> & ->).
    rewrite HT, Done_bind. cbv beta zeta. rewrite HA, Done_bind. cbv beta zeta.
    rewrite Hcap, Done_bind, Hblock, Hcluster. cbn [assert]. rewrite !Done_bind.
    rewrite Hbits, Done_bind. cbv beta zeta. rewrite Hinst, Done_bind, HB.
    reflexivity.
Qed.

Lemma compute_utilized_clusters_Done specs pvi x x' :
  compute_utilized_clusters specs pvi x = Done x' ->
  exists c, x' = set_utilized_clusters c x.
Proof.
  unfold compute_utilized_clusters. intros H. inv_outcome. subst. eauto.
Qed.

(** What [ComputeAccesses] leaves in [stats_] for data space [pvi]. *)
Lemma ComputeAccesses_entry fuel level tile mask bof status level' pvi :
  ComputeAccesses NumDataSpaces IsReadWriteDataSpace FIXED_DRAM_SIZE_IF_UNSPECIFIED
    fuel level tile mask bof = Done (status, level') ->
  (pvi < NumDataSpaces)%nat ->
  exists T x0 a c,
    total_tile_size NumDataSpaces (specs_ level) tile = Done T /\
    Stats.per_data_space (stats_ level) !! pvi = Some x0 /\
    collect_stats IsReadWriteDataSpace fuel (specs_ level) tile mask T pvi = Done a /\
    Stats.per_data_space (stats_ level') !! pvi
      = Some (set_utilized_clusters c (set_accesses a x0)).
Proof.
  intros H Hpvi. apply ComputeAccesses_Done in H.
  destruct H as (T & perA & st0 & bits & st1 & perB
                 & HT & HA & _ & _ & _ & _ & _ & HB & _ & ->).
  destruct (for_each_from_inside _ _ _ _ _ pvi HA) as (x0 & xA & Hx0 & HbA & HxA); [lia|].
  destruct (for_each_from_inside _ _ _ _ _ pvi HB) as (y & xB & Hy & HbB & HxB); [lia|].
  rewrite HxA in Hy. injection Hy as <-.
  apply bind_Done in HbA. destruct HbA as (a & Ha & Hret). injection Hret as <-.
  apply compute_utilized_clusters_Done in HbB. destruct HbB as (c & ->).
  exists T, x0, a, c. simpl. auto.
Qed.

(** The tile sizes stored by [collect_stats] are those of [tile_sizes]. *)
Lemma collect_stats_Done fuel specs tile mask T pvi a :
  collect_stats IsReadWriteDataSpace fuel specs tile mask T pvi = Done a ->
  exists sizes q,
    tile_sizes fuel specs (tile pvi) T = Done sizes /\
    fdiv (dbl (ts_metadata_tile_size sizes) * dbl (Specs.metadata_word_bits specs))
         (dbl (Specs.word_bits specs)) = Done q /\
    Bool.eqb (tiling.size (tile pvi) =? 0) (tiling.content_accesses (tile pvi) =? 0) = true /\
    Stats.tile_size a = tiling.size (tile pvi) /\
    Stats.tile_confidence a = ts_tile_confidence sizes /\
    Stats.compressed_tile_size a = ts_compressed_tile_size sizes /\
    Stats.metadata_tile_size a = ts_metadata_tile_size sizes /\
    Stats.tile_max_density a = ts_stored_data_density sizes /\
    Stats.utilized_capacity a = u64 (ts_compressed_tile_size sizes + ceil q) /\
    Stats.utilized_instances a = tiling.replication_factor (tile pvi) /\
    Stats.reads a = tiling.reads (tile pvi) /\
    Stats.updates a = tiling.updates (tile pvi) /\
    Stats.fills a = tiling.fills (tile pvi).
Proof.
  unfold collect_stats. intros H. inv_outcome. subst a. simpl.
  eexists _, _. repeat split; eauto.
Qed.

Lemma tile_sizes_uncompressed fuel specs t T :
  tiling.compressed t = false ->
  tile_sizes fuel specs t T =
  Done {| ts_tile_confidence := 1;
          ts_compressed_tile_size := tiling.size t;
          ts_metadata_tile_size :=
            if String.eqb (tiling.metadata_format t) "bitmask" then tiling.size t else 0;
          ts_stored_data_density := 1 |}.
Proof. intros Hc. unfold tile_sizes. by rewrite Hc. Qed.

(** C5.  A data space whose tile has compression disabled gets, for any
    fuel, its raw tile size as compressed tile size, and as metadata tile
    size the raw tile size when the metadata format is "bitmask" and zero
    for every other format; these are the values [ComputeAccesses] leaves
    in [stats_]. *)
Theorem uncompressed_tile_sizes fuel level tile mask bof status level' pvi :
  ComputeAccesses NumDataSpaces IsReadWriteDataSpace FIXED_DRAM_SIZE_IF_UNSPECIFIED
    fuel level tile mask bof = Done (status, level') ->
  (pvi < NumDataSpaces)%nat ->
  tiling.compressed (tile pvi) = false ->
  exists x,
    Stats.per_data_space (stats_ level') !! pvi = Some x /\
    Stats.compressed_tile_size (Stats.accesses x) = tiling.size (tile pvi) /\
    Stats.metadata_tile_size (Stats.accesses x) =
      (if String.eqb (tiling.metadata_format (tile pvi)) "bitmask"
       then tiling.size (tile pvi) else 0).
Proof.
  intros H Hpvi Hc.
  destruct (ComputeAccesses_entry _ _ _ _ _ _ _ _ H Hpvi) as (T & x0 & a & c & _ & _ & Ha & Hx).
  apply collect_stats_Done in Ha.
  destruct Ha as (sizes & q & Hs & _ & _ & _ & _ & Hcomp & Hmd & _).
  rewrite tile_sizes_uncompressed in Hs by done. injection Hs as <-.
  eexists. split; [exact Hx|]. simpl. auto.
Qed.

(** *** Passes that leave the access counts alone *)

Lemma for_each_from_accesses body n pvi l l' :
  preserves_accesses body ->
  for_each_from body n pvi l = Done l' ->
  Stats.accesses <$> l' = Stats.accesses <$> l.
Proof.
  intros Hp H. apply list_eq. intros i. rewrite !list_lookup_fmap.
  destruct (decide (pvi <= i < pvi + n)%nat) as [Hi|Hi].
  - destruct (for_each_from_inside _ _ _ _ _ i H Hi) as (x & x' & -> & Hb & ->).
    simpl. f_equal. eauto.
  - rewrite (for_each_from_outside _ _ _ _ _ i H) by lia. done.
Qed.

Lemma total_utilized_capacity_fmap l :
  total_utilized_capacity l =
  foldl (fun acc a => u64 (acc + Stats.utilized_capacity a)) 0 (Stats.accesses <$> l).
Proof.
  unfold total_utilized_capacity. generalize 0.
  induction l as [|x l IH]; intros acc; simpl; [done|]. apply IH.
Qed.

Lemma utilized_instances_Max_fmap l :
  utilized_instances_Max l =
  foldr (fun a m => Z.max (Stats.utilized_instances a) m) 0 (Stats.accesses <$> l).
Proof.
  unfold utilized_instances_Max.
  induction l as [|x l IH]; simpl; [done|]. by rewrite IH.
Qed.

Lemma compute_utilized_clusters_accesses specs :
  preserves_accesses (compute_utilized_clusters specs).
Proof.
  intros i x x' H. apply compute_utilized_clusters_Done in H. by destruct H as (c & ->).
Qed.







(** *** The validation after the per-tensor pass *)

Lemma Qltb_lt (x y : Q) : Qltb x y = true <-> (x < y)%Q.
Proof.
  unfold Qltb. rewrite negb_true_iff. split.
  - intros H. apply Qnot_le_lt. intros Hle. apply Qle_bool_iff in Hle. congruence.
  - intros H. destruct (Qle_bool y x) eqn:E; [|done].
    apply Qle_bool_iff in E. exfalso. by apply (Qlt_not_le x y).
Qed.




End AccessProperties.


(** The dense tile of 65536 words, uncompressed and without metadata
    format: 65536 words of data and no metadata. *)
Lemma uncompressed_tile_sizes_witness :
  exists status level' x,
    ComputeAccesses 1 read_only false 0
      (new_level (sram 65536) 1) (dense_tile 65536) all_kept true
    = Done (status, level') /\
    Stats.per_data_space (stats_ level') !! 0%nat = Some x /\
    Stats.compressed_tile_size (Stats.accesses x) = 65536 /\
    Stats.metadata_tile_size (Stats.accesses x) = 0.
Proof.
  destruct (ComputeAccesses 1 read_only false 0
              (new_level (sram 65536) 1) (dense_tile 65536) all_kept true)
    as [[status level']|f] eqn:H; [|vm_compute in H; discriminate].
  destruct (uncompressed_tile_sizes 1 read_only false 0 _ _ _ _ _ _ 0%nat
              H (Nat.lt_0_succ 0) eq_refl) as (x & Hx & Hcompressed & Hmetadata).
  exists status, level', x. auto.
Defined.


(** ** The capacity pre-check *)

Section PreCheck.
Context {Subnest : Type}.
Variable NumDataSpaces : nat.

Implicit Types (level : BufferLevel Subnest).





End PreCheck.


(** ** The performance pass *)

Section Performance.
Variable NumDataSpaces : nat.

Lemma fdiv_Done (x y : Q) : ~ (y == 0)%Q -> fdiv x y = Done (x / y)%Q.
Proof.
  intros Hy. unfold fdiv. destruct (Qeq_bool y 0) eqn:E; [|done].
  apply Qeq_bool_iff in E. contradiction.
Qed.

Lemma dbl_nonzero (z : Z) : z <> 0 -> ~ (dbl z == 0)%Q.
Proof. intros Hz H. unfold dbl in H. apply (inject_Z_injective z 0) in H. done. Qed.


Lemma std_min_1 (r : Q) : (0 < r)%Q -> (r < 1)%Q -> std_min 1 r = r.
Proof. intros _ Hr. unfold std_min. apply Qltb_lt in Hr. by rewrite Hr. Qed.







End Performance.


(** ** The sparse-size convergence loop *)




Section Convergence.
Context {Subnest : Type}.
Variable specs : Specs.t.
Variable t : tiling.DataMovementInfo Subnest.
Variable allocated : Z.








End Convergence.



(** The quotient of line 759 is the integer one, the metadata equivalent
    of lines 694, 717, 738 and 812 the ceiling of the real one.  On
    [uneven_tile] the loop accepts 67 words of data with 67 words of
    metadata, which it counts as 33 words (100 in all, the whole level);
    the utilized capacity then counts them as 34, and the level is reported
    as exceeded by one word. *)
Lemma integer_quotient_undercounts :
  tile_sizes 10 (narrow_metadata 100) (uneven_tile 0) 105
  = Done {| ts_tile_confidence := 3 # 4;
            ts_compressed_tile_size := 67;
            ts_metadata_tile_size := 67;
            ts_stored_data_density := 67 # 100 |} /\
  67 * Specs.metadata_word_bits (narrow_metadata 100)
    / Specs.word_bits (narrow_metadata 100) = 33 /\
  metadata_equivalent (narrow_metadata 100) 67 = Done 34 /\
  (result ← ComputeAccesses 1 read_only false 10
              (new_level (narrow_metadata 100) 1) uneven_tile all_kept true;
   mret result.1)
  = Done {| success := false; fail_reason := [ExceedsBufferCapacity 101 100] |}.
Proof.
  split; [vm_compute; reflexivity|]. split; [reflexivity|].
  split; vm_compute; reflexivity.
Qed.


(** ** The assertion on tile size and content accesses *)

Lemma eqb_zero_iff (a b : Z) :
  Bool.eqb (a =? 0) (b =? 0) = true <-> (a = 0 <-> b = 0).
Proof.
  destruct (Z.eqb_spec a 0), (Z.eqb_spec b 0); simpl; split;
    try tauto; try done; intros H; exfalso; tauto.
Qed.

Section Assertion.
Context {Subnest : Type}.
Variable NumDataSpaces : nat.
Variable IsReadWriteDataSpace : nat -> bool.
Variable FIXED_DRAM_SIZE_IF_UNSPECIFIED : bool.

Implicit Types (level : BufferLevel Subnest).
Implicit Types (tile : nat -> tiling.DataMovementInfo Subnest).

(** C10.  [ComputeAccesses] requires of every tile descriptor that its
    tile size is zero if and only if its content-access count is zero.
    With a descriptor that breaks this it never returns a status: the run
    ends in the failing assertion as soon as the data spaces before it, and
    the tile sizes of the offending one, have been computed. *)
Theorem size_accesses_assertion fuel level tile mask bof pvi :
  (pvi < NumDataSpaces)%nat ->
  ~ (tiling.size (tile pvi) = 0 <-> tiling.content_accesses (tile pvi) = 0) ->
  (forall result,
     ComputeAccesses NumDataSpaces IsReadWriteDataSpace FIXED_DRAM_SIZE_IF_UNSPECIFIED
       fuel level tile mask bof <> Done result) /\
  (forall T,
     total_tile_size NumDataSpaces (specs_ level) tile = Done T ->
     (NumDataSpaces <= length (Stats.per_data_space (stats_ level)))%nat ->
     (forall j, (j < pvi)%nat ->
        exists a, collect_stats IsReadWriteDataSpace fuel (specs_ level) tile mask T j
                  = Done a) ->
     (exists sizes, tile_sizes fuel (specs_ level) (tile pvi) T = Done sizes) ->
     Specs.word_bits (specs_ level) <> 0 ->
     ComputeAccesses NumDataSpaces IsReadWriteDataSpace FIXED_DRAM_SIZE_IF_UNSPECIFIED
       fuel level tile mask bof = Fault AssertionFailure).
Proof.
  intros Hpvi Hbroken. split.
  - intros [status level'] H.
    destruct (ComputeAccesses_entry _ _ _ _ _ _ _ _ _ _ _ H Hpvi)
      as (T & x0 & a & c & _ & _ & Ha & _).
    apply collect_stats_Done in Ha. destruct Ha as (sizes & q & _ & _ & Hassert & _).
    by apply eqb_zero_iff in Hassert.
  - intros T HT Hlen Hbefore [sizes Hsizes] Hwb.
    unfold ComputeAccesses. rewrite HT, Done_bind. cbv beta zeta.
    unfold for_each_data_space.
    rewrite (for_each_from_fault _ _ AssertionFailure _ _ pvi); [done|lia|lia| |].
    + intros j x Hj. destruct (Hbefore j) as [a ->]; [lia|]. by eexists.
    + intros x. unfold collect_stats. rewrite Hsizes, Done_bind.
      rewrite fdiv_Done by by apply dbl_nonzero. rewrite Done_bind.
      destruct (Bool.eqb _ _) eqn:Hassert; [|done].
      by apply eqb_zero_iff in Hassert.
Qed.

End Assertion.

(** An empty tile with five content accesses stops [ComputeAccesses] in the
    assertion. *)
Lemma size_accesses_assertion_witness :
  ComputeAccesses 1 read_only false 0
    (new_level (sram 65536) 1) empty_but_accessed all_kept true
  = Fault AssertionFailure.
Proof.
  apply (proj2 (size_accesses_assertion 1 read_only false 0%nat
                  (new_level (sram 65536) 1) empty_but_accessed all_kept true 0%nat
                  (Nat.lt_0_succ 0) ltac:(vm_compute; intros [H _]; by specialize (H eq_refl)))
           0).
  - reflexivity.
  - simpl. lia.
  - intros j Hj. lia.
  - eexists. reflexivity.
  - discriminate.
Defined.

(** ** Zero accesses and zero instances in the energy and performance
    passes *)

Section ZeroCases.
Context {Subnest : Type}.

Implicit Types (t : tiling.DataMovementInfo Subnest).


End ZeroCases.



(** ** The pre-check against the evaluation *)

Section Monotonicity.
Context {Subnest : Type}.
Variable NumDataSpaces : nat.
Variable IsReadWriteDataSpace : nat -> bool.
Variable storageOperationTypes : list string.
Variable AdderEnergy : Z -> Z -> Q.
Variable FIXED_DRAM_SIZE_IF_UNSPECIFIED : bool.

Implicit Types (level : BufferLevel Subnest).
Implicit Types (tile : nat -> tiling.DataMovementInfo Subnest).
Implicit Types (t : tiling.DataMovementInfo Subnest).





(** *** The sum of the utilized capacities *)













End Monotonicity.



(** ** Idempotence of [Evaluate] *)


Section SpecsFrame.
Context {Subnest : Type}.
Variable bits : Z.
Variable specs : Specs.t.

Implicit Types (t : tiling.DataMovementInfo Subnest).
Implicit Types (tile : nat -> tiling.DataMovementInfo Subnest).





End SpecsFrame.


Section Idempotence.
Context {Subnest : Type}.
Variable NumDataSpaces : nat.
Variable IsReadWriteDataSpace : nat -> bool.
Variable storageOperationTypes : list string.
Variable AdderEnergy : Z -> Z -> Q.
Variable FIXED_DRAM_SIZE_IF_UNSPECIFIED : bool.

Implicit Types (level : BufferLevel Subnest).
Implicit Types (tile : nat -> tiling.DataMovementInfo Subnest).












End Idempotence.


(** ** The topology of a level *)

Lemma umod_Done a b r : umod a b = Done r <-> b <> 0 /\ r = a mod b.
Proof.
  unfold umod. destruct (b =? 0) eqn:Hb.
  - apply Z.eqb_eq in Hb. split; [discriminate | tauto].
  - apply Z.eqb_neq in Hb. split; [intros [= <-]; done | intros [_ ->]; done].
Qed.

Lemma udiv_Done a b q : udiv a b = Done q <-> b <> 0 /\ q = a / b.
Proof.
  unfold udiv. destruct (b =? 0) eqn:Hb.
  - apply Z.eqb_eq in Hb. split; [discriminate | tauto].
  - apply Z.eqb_neq in Hb. split; [intros [= <-]; done | intros [_ ->]; done].
Qed.

Lemma u64_u64 z : u64 (u64 z) = u64 z.
Proof. unfold u64. apply Z.mod_mod. lia. Qed.

Lemma u64_small z : 0 <= z < 2 ^ 64 -> u64 z = z.
Proof. apply Z.mod_small. Qed.

Ltac inv_arith :=
  inv_outcome;
  repeat match goal with
  | H : umod _ _ = Done _ |- _ => apply umod_Done in H as [? ?]
  | H : udiv _ _ = Done _ |- _ => apply udiv_Done in H as [? ?]
  | H : (_ =? _) = true |- _ => apply Z.eqb_eq in H
  | H : (_ =? _) = false |- _ => apply Z.eqb_neq in H
  end; subst.

Lemma ValidateTopology_Returns specs specs' :
  ValidateTopology specs = Done (Returns specs') ->
  exists instances meshX meshY,
    Specs.instances (FullSpecs.evaluated specs') = Some instances /\
    FullSpecs.meshX specs' = Some meshX /\
    FullSpecs.meshY specs' = Some meshY /\
    u64 (meshX * meshY) = u64 instances /\
    (is_Some (Specs.instances (FullSpecs.evaluated specs)) ->
     FullSpecs.evaluated specs' = FullSpecs.evaluated specs) /\
    (forall v, Specs.instances (FullSpecs.evaluated specs) = Some v -> instances = v) /\
    (forall v, FullSpecs.meshX specs = Some v -> meshX = v) /\
    (forall v, FullSpecs.meshY specs = Some v -> meshY = v) /\
    specs' = FullSpecs.set_mesh (Some meshX) (Some meshY)
               (FullSpecs.set_evaluated (FullSpecs.evaluated specs') specs).
Proof.
  unfold ValidateTopology.
  destruct specs as [ev nm ln np nb mx my rn fn dn un vae sa ert]; simpl.
  destruct (Specs.instances ev) as [i|] eqn:Hi, mx as [x|], my as [y|]; simpl;
    intros H; try discriminate.
  - destruct (u64 (x * y) =? i) eqn:Hxy; [|discriminate]. apply Z.eqb_eq in Hxy.
    injection H as <-. simpl. exists i, x, y. rewrite Hi, <- Hxy, u64_u64.
    repeat split; try done; intros v [= ->]; done.
  - inv_arith. simpl. exists i, x, (i / x). rewrite Hi.
    assert (x * (i / x) = i) as -> by (pose proof (Z.div_mod i x); lia).
    repeat split; try done; intros v [= ->]; done.
  - inv_arith. simpl. exists i, (i / y), y. rewrite Hi.
    assert (i / y * y = i) as -> by (pose proof (Z.div_mod i y); lia).
    repeat split; try done; intros v [= ->]; done.
  - injection H as <-. simpl. exists i, i, 1. rewrite Hi, Z.mul_1_r.
    repeat split; try done; intros v [= ->]; done.
  - injection H as <-. simpl. exists (u64 (x * y)), x, y. rewrite u64_u64.
    repeat split; try done; try (intros v [= ->]; done).
Qed.

(** X1.  [ValidateTopology] returns only with the three of [instances],
    [meshX] and [meshY] specified and [meshX * meshY = instances] (as 64-bit
    numbers); what was specified keeps its value, and nothing else of the
    specification changes. *)
Theorem ValidateTopology_consistent specs specs' :
  ValidateTopology specs = Done (Returns specs') ->
  exists instances meshX meshY,
    Specs.instances (FullSpecs.evaluated specs') = Some instances /\
    FullSpecs.meshX specs' = Some meshX /\
    FullSpecs.meshY specs' = Some meshY /\
    u64 (meshX * meshY) = u64 instances /\
    (forall v, Specs.instances (FullSpecs.evaluated specs) = Some v -> instances = v) /\
    (forall v, FullSpecs.meshX specs = Some v -> meshX = v) /\
    (forall v, FullSpecs.meshY specs = Some v -> meshY = v) /\
    specs' = FullSpecs.set_mesh (Some meshX) (Some meshY)
               (FullSpecs.set_evaluated
                  (set_instances instances (FullSpecs.evaluated specs)) specs).
Proof.
  intros H. pose proof H as H0. apply ValidateTopology_Returns in H0.
  destruct H0 as (i & x & y & Hi & Hx & Hy & Hxy & Hev & Hki & Hkx & Hky & Hs).
  exists i, x, y. repeat split; try done.
  rewrite Hs at 1. f_equal. f_equal.
  destruct (Specs.instances (FullSpecs.evaluated specs)) as [v|] eqn:Hv.
  - rewrite Hev by done. specialize (Hki v eq_refl). subst v.
    destruct (FullSpecs.evaluated specs); simpl in *. by rewrite Hv.
  - revert H Hi. unfold ValidateTopology. rewrite Hv. simpl.
    destruct (FullSpecs.meshX specs), (FullSpecs.meshY specs); simpl; try discriminate.
    intros [= <-]. simpl. by intros [= <-].
Qed.

(** Six instances in rows of two: the mesh is completed to two by three. *)
Lemma ValidateTopology_consistent_witness :
  exists specs' instances meshX meshY,
    ValidateTopology (described (Some 6) (Some 2) None ∅) = Done (Returns specs') /\
    Specs.instances (FullSpecs.evaluated specs') = Some instances /\
    FullSpecs.meshX specs' = Some meshX /\ FullSpecs.meshY specs' = Some meshY /\
    u64 (meshX * meshY) = u64 instances.
Proof.
  destruct (ValidateTopology (described (Some 6) (Some 2) None ∅))
    as [[specs'|status]|f] eqn:H; [|vm_compute in H; discriminate..].
  destruct (ValidateTopology_consistent _ _ H) as (i & x & y & Hi & Hx & Hy & Hxy & _).
  exists specs', i, x, y. repeat split; assumption.
Defined.


(** X3.  On the specification it returns, [ValidateTopology] returns again
    and changes nothing. *)
Theorem ValidateTopology_idempotent specs specs' :
  (forall i, Specs.instances (FullSpecs.evaluated specs) = Some i -> 0 <= i < 2 ^ 64) ->
  ValidateTopology specs = Done (Returns specs') ->
  ValidateTopology specs' = Done (Returns specs').
Proof.
  intros Hrange H. pose proof H as H0. apply ValidateTopology_Returns in H0.
  destruct H0 as (i & x & y & Hi & Hx & Hy & Hxy & _ & Hki & _).
  assert (u64 i = i) as Hu.
  { destruct (Specs.instances (FullSpecs.evaluated specs)) as [v|] eqn:Hv.
    - specialize (Hki v eq_refl). subst v. apply u64_small, Hrange. done.
    - revert H Hi. unfold ValidateTopology. rewrite Hv. simpl.
      destruct (FullSpecs.meshX specs), (FullSpecs.meshY specs); simpl; try discriminate.
      intros [= <-]. simpl. intros [= <-]. apply u64_u64. }
  unfold ValidateTopology. rewrite Hi, Hx, Hy. simpl.
  rewrite Hxy, Hu, Z.eqb_refl. done.
Qed.

Lemma ValidateTopology_idempotent_witness :
  exists specs',
    ValidateTopology (described (Some 6) (Some 2) None ∅) = Done (Returns specs') /\
    ValidateTopology specs' = Done (Returns specs').
Proof.
  destruct (ValidateTopology (described (Some 6) (Some 2) None ∅))
    as [[specs'|status]|f] eqn:H; [|vm_compute in H; discriminate..].
  exists specs'. split; [reflexivity|].
  apply (ValidateTopology_idempotent (described (Some 6) (Some 2) None ∅)); [|exact H].
  intros i Hi. vm_compute in Hi. injection Hi as <-. lia.
Defined.

(** ** Numbers *)

Lemma u32_sizeKB k : u32 (u32 (k * 1024) * 8) = k mod 2 ^ 19 * 8192.
Proof.
  unfold u32. rewrite Z.mul_mod_idemp_l by lia.
  replace (k * 1024 * 8) with (k * 8192) by lia.
  change (2 ^ 32) with (2 ^ 19 * 8192).
  rewrite Z.mul_mod_distr_r by lia. done.
Qed.

Lemma trunc_dbl z : trunc (dbl z) = z.
Proof.
  unfold trunc, dbl. destruct (Qle_bool 0 (inject_Z z)); [apply Qfloor_Z | apply Qceiling_Z].
Qed.

Lemma to_uint64_Done x z : to_uint64 x = Done z <-> z = trunc x /\ 0 <= z < 2 ^ 64.
Proof.
  unfold to_uint64. destruct (0 <=? trunc x) eqn:H0; simpl.
  - destruct (trunc x <? 2 ^ 64) eqn:H1; split.
    + intros [= <-]. lia.
    + by intros [-> _].
    + discriminate.
    + intros [-> ?]. lia.
  - split; [discriminate|]. intros [-> ?]. lia.
Qed.



Lemma dbl_eq_0 z : (dbl z == 0)%Q <-> z = 0.
Proof.
  unfold dbl. split.
  - intros H. by apply (inject_Z_injective z 0).
  - by intros ->.
Qed.


(** ** What ParseSpecs returns *)

Section ParsingProperties.
Variable kDefaultWordBits : Z.
Variable parseName : string -> string.
Variable DRAMEnergy : Z -> Q.
Variable SRAMEnergy : Z -> Z -> Z -> Z -> Q.
Variable SRAMArea : Z -> Z -> Z -> Z -> Q.

Local Abbreviation parse :=
  (ParseSpecs kDefaultWordBits parseName DRAMEnergy SRAMEnergy SRAMArea).

Lemma ParseSpecs_Returns level n_elements specs :
  parse level n_elements = Done (Returns specs) ->
  let buffer := default (config.settings level) (config.attributes level) in
  let word_bits :=
    default kDefaultWordBits
      (lookup_first (config.lookupValue_uint32 buffer)
         ["word-bits"; "word_width"; "datawidth"]) in
  let block_size_local :=
    lookup_first (config.lookupValue_uint32 buffer) ["block-size"; "n_words"] in
  let block_size := default 1 block_size_local in
  let multiple_buffering :=
    default 1%Q (config.lookupValue_double buffer "multiple-buffering") in
  let min_utilization :=
    default 0%Q (config.lookupValue_double buffer "min-utilization") in
  let technology :=
    parse_technology buffer
      (match config.attributes level with
       | Some _ => default "" (config.lookupValue_string (config.settings level) "class")
       | None => ""
       end) in
  exists metadata_block_size cluster_size size num_ports effective_size energy area name,
    match config.lookupValue_uint32 buffer "metadata-block-size" with
    | Some _ => block_size_local = Some metadata_block_size
    | None => metadata_block_size = 1
    end /\
    parse_cluster_size buffer word_bits block_size = Done cluster_size /\
    parse_size buffer word_bits block_size = Done size /\
    parse_num_ports buffer = Done num_ports /\
    parse_effective_size size multiple_buffering = Done effective_size /\
    (Qeq_bool min_utilization 0 = false -> IsSpecified effective_size = true) /\
    pat_energy_area DRAMEnergy SRAMEnergy SRAMArea technology size word_bits block_size
      cluster_size (default 2 (config.lookupValue_uint32 buffer "num-banks")) num_ports
    = Done (energy, area) /\
    config.lookupValue_string (config.settings level) "name" = Some name /\
    FullSpecs.evaluated specs =
      {| Specs.technology := technology;
         Specs.size := size;
         Specs.word_bits := word_bits;
         Specs.addr_gen_bits := None;
         Specs.block_size := Some block_size;
         Specs.metadata_block_size := metadata_block_size;
         Specs.metadata_word_bits :=
           default 0 (config.lookupValue_uint32 buffer "metadata_datawidth");
         Specs.cluster_size := Some cluster_size;
         Specs.instances :=
           Some (default n_elements (config.lookupValue_uint32 buffer "instances"));
         Specs.read_bandwidth := parse_bandwidth buffer "read_bandwidth";
         Specs.write_bandwidth := parse_bandwidth buffer "write_bandwidth";
         Specs.multiple_buffering := multiple_buffering;
         Specs.effective_size := effective_size;
         Specs.min_utilization := min_utilization;
         Specs.addr_gen_energy :=
           default (- (1 # 10))%Q (config.lookupValue_double buffer "addr-gen-energy");
         Specs.op_energy_map := ∅ |} /\
    FullSpecs.name specs = Some (parseName name) /\
    FullSpecs.level_name specs = parseName name /\
    FullSpecs.num_ports specs = num_ports /\
    FullSpecs.vector_access_energy specs =
      Some (default energy (config.lookupValue_double buffer "vector-access-energy")) /\
    FullSpecs.ERT_entries specs = ∅ /\
    exists meshX meshY,
      FullSpecs.meshX specs = Some meshX /\ FullSpecs.meshY specs = Some meshY /\
      u64 (meshX * meshY)
      = u64 (default n_elements (config.lookupValue_uint32 buffer "instances")).
Proof.
  unfold ParseSpecs. intros H. cbv zeta.
  apply bind_Done in H as (metadata_block_size & Hm & H).
  apply bind_Done in H as (cluster_size & Hc & H).
  apply bind_Done in H as (size & Hs & H).
  apply bind_Done in H as (num_ports & Hp & H).
  apply bind_Done in H as (effective_size & He & H).
  apply bind_Done in H as ([] & Hu & H).
  apply bind_Done in H as ([energy area] & Hpat & H).
  apply bind_Done in H as (storage_area & Ha & H).
  apply bind_Done in H as (level_name & Hn & H).
  destruct (config.lookupValue_string (config.settings level) "name") as [name|] eqn:Hname;
    [|discriminate].
  injection Hn as <-.
  apply ValidateTopology_Returns in H.
  destruct H as (i & x & y & Hi & Hx & Hy & Hxy & Hev & _ & _ & _ & Hspecs).
  simpl in Hev, Hi. rewrite Hev in Hi by done. injection Hi as <-.
  exists metadata_block_size, cluster_size, size, num_ports, effective_size, energy, area, name.
  split.
  { destruct (config.lookupValue_uint32 _ "metadata-block-size").
    - destruct (lookup_first _ ["block-size"; "n_words"]); inv_outcome; by subst.
    - inv_outcome. done. }
  do 4 (split; [done|]). split.
  { intros Hne. rewrite Hne in Hu. simpl in Hu. by apply assert_Done in Hu. }
  split; [done|]. split; [done|]. split; [by apply Hev|].
  rewrite Hspecs. simpl. repeat split; try done. by exists x, y.
Qed.



(** X4.  The size of a parsed level.  "entries" is taken as it is;
    otherwise "depth" (or "memory_depth") is multiplied by the block size;
    otherwise "sizeKB" is converted with 32-bit arithmetic, so that only its
    low 19 bits count: the size is
    [(sizeKB mod 2^19) * 8192 / word_bits]; with none of them the size is
    unspecified.  A level that gives "entries" or a depth together with
    "sizeKB" is not parsed. *)
Theorem ParseSpecs_size level n_elements specs :
  ParseSpecs kDefaultWordBits parseName DRAMEnergy SRAMEnergy SRAMArea level n_elements
  = Done (Returns specs) ->
  let buffer := default (config.settings level) (config.attributes level) in
  let lookup := config.lookupValue_uint32 buffer in
  let size := Specs.size (FullSpecs.evaluated specs) in
  (forall entries, lookup "entries" = Some entries ->
     size = Some entries /\ config.exists_ buffer "sizeKB" = false) /\
  (forall depth, lookup "entries" = None ->
     lookup_first lookup ["depth"; "memory_depth"] = Some depth ->
     exists block_size,
       Specs.block_size (FullSpecs.evaluated specs) = Some block_size /\
       size = Some (u64 (depth * block_size)) /\
       config.exists_ buffer "sizeKB" = false /\ config.exists_ buffer "entries" = false) /\
  (forall sizeKB, lookup "entries" = None ->
     lookup_first lookup ["depth"; "memory_depth"] = None ->
     lookup "sizeKB" = Some sizeKB ->
     Specs.word_bits (FullSpecs.evaluated specs) <> 0 /\
     size = Some (sizeKB mod 2 ^ 19 * 8192 / Specs.word_bits (FullSpecs.evaluated specs))) /\
  (lookup "entries" = None ->
   lookup_first lookup ["depth"; "memory_depth"] = None ->
   lookup "sizeKB" = None -> size = None).
Proof.
  intros H. apply ParseSpecs_Returns in H. cbv zeta in H.
  destruct H as (mbs & cs & size & ports & eff & energy & area & name
                 & _ & _ & Hsize & _ & _ & _ & _ & _ & Hev & _).
  cbv zeta. rewrite Hev. cbn [Specs.size Specs.block_size Specs.word_bits].
  unfold parse_size in Hsize.
  set (buffer := default (config.settings level) (config.attributes level)) in *.
  destruct (config.lookupValue_uint32 buffer "entries") as [entries|].
  { inv_outcome. apply negb_true_iff in H. subst size.
    repeat split; intros; simplify_eq; done. }
  destruct (lookup_first (config.lookupValue_uint32 buffer) ["depth"; "memory_depth"])
    as [depth|].
  { inv_outcome. apply negb_true_iff in H, H0. subst size.
    repeat split; intros; simplify_eq; eauto. }
  destruct (config.lookupValue_uint32 buffer "sizeKB") as [sizeKB|].
  { inv_outcome. apply udiv_Done in H as [Hw ->]. subst size.
    repeat split; intros; simplify_eq; try done. by rewrite u32_sizeKB. }
  inv_outcome. subst size. repeat split; intros; simplify_eq; done.
Qed.









(** X8.  The cluster size of a parsed level.  "cluster-size" is taken as
    it is; otherwise a "width" (or "memory_width") must be a whole number of
    blocks, [word_bits * block_size] bits each in 32-bit arithmetic, and the
    cluster size is that number; with neither the cluster size is one. *)
Theorem ParseSpecs_cluster_size level n_elements specs :
  ParseSpecs kDefaultWordBits parseName DRAMEnergy SRAMEnergy SRAMArea level n_elements
  = Done (Returns specs) ->
  let buffer := default (config.settings level) (config.attributes level) in
  let lookup := config.lookupValue_uint32 buffer in
  let s := FullSpecs.evaluated specs in
  (forall cluster_size, lookup "cluster-size" = Some cluster_size ->
     Specs.cluster_size s = Some cluster_size) /\
  (forall width, lookup "cluster-size" = None ->
     lookup_first lookup ["width"; "memory_width"] = Some width ->
     exists cluster_size block_size,
       Specs.cluster_size s = Some cluster_size /\
       Specs.block_size s = Some block_size /\
       u32 (u32 (Specs.word_bits s) * u32 block_size) <> 0 /\
       cluster_size * u32 (u32 (Specs.word_bits s) * u32 block_size) = width) /\
  (lookup "cluster-size" = None ->
   lookup_first lookup ["width"; "memory_width"] = None ->
   Specs.cluster_size s = Some 1).
Proof.
  intros H. apply ParseSpecs_Returns in H. cbv zeta in H.
  destruct H as (mbs & cs & size & ports & eff & energy & area & name
                 & _ & Hcs & _ & _ & _ & _ & _ & _ & Hev & _).
  cbv zeta. rewrite Hev. cbn [Specs.cluster_size Specs.block_size Specs.word_bits].
  unfold parse_cluster_size in Hcs.
  set (buffer := default (config.settings level) (config.attributes level)) in *.
  destruct (config.lookupValue_uint32 buffer "cluster-size") as [c|].
  { inv_outcome. subst cs. repeat split; intros; simplify_eq; done. }
  destruct (lookup_first (config.lookupValue_uint32 buffer) ["width"; "memory_width"])
    as [width|].
  { apply bind_Done in Hcs as (r & Hr & Hcs). apply umod_Done in Hr as [Hne ->].
    apply bind_Done in Hcs as ([] & Ha & Hcs). apply assert_Done, Z.eqb_eq in Ha.
    apply udiv_Done in Hcs as [_ ->].
    split; [by intros|]. split; [|by intros]. intros w _ [= <-].
    eexists _, _. split; [done|]. split; [done|]. split; [done|].
    set (bits := u32 _) in *. pose proof (Z.div_mod width bits Hne). lia. }
  inv_outcome. subst cs. repeat split; intros; simplify_eq; done.
Qed.

(** X9.  The "metadata-block-size" entry of a level is never used as its
    metadata block size: when the entry is present the level gets its block
    size instead, which must then have been given by "block-size" or
    "n_words"; when it is absent the metadata block size is one. *)
Theorem ParseSpecs_metadata_block_size level n_elements specs :
  ParseSpecs kDefaultWordBits parseName DRAMEnergy SRAMEnergy SRAMArea level n_elements
  = Done (Returns specs) ->
  let buffer := default (config.settings level) (config.attributes level) in
  let s := FullSpecs.evaluated specs in
  (config.lookupValue_uint32 buffer "metadata-block-size" = None ->
   Specs.metadata_block_size s = 1) /\
  (is_Some (config.lookupValue_uint32 buffer "metadata-block-size") ->
   Specs.block_size s = Some (Specs.metadata_block_size s) /\
   lookup_first (config.lookupValue_uint32 buffer) ["block-size"; "n_words"]
   = Some (Specs.metadata_block_size s)).
Proof.
  intros H. apply ParseSpecs_Returns in H. cbv zeta in H.
  destruct H as (mbs & cs & size & ports & eff & energy & area & name
                 & Hm & _ & _ & _ & _ & _ & _ & _ & Hev & _).
  cbv zeta. rewrite Hev. cbn [Specs.metadata_block_size Specs.block_size].
  destruct (config.lookupValue_uint32 _ "metadata-block-size").
  - split; [done|]. intros _. by rewrite Hm.
  - split; [done|]. by intros [? [=]].
Qed.

(** X10.  A level described by its name and its number of entries alone is
    parsed, with the defaults: words of [kDefaultWordBits] bits, block size
    and cluster size one, SRAM with two ports and two banks, no metadata, no
    bandwidth cap, single buffering (the effective size is the size), no
    minimum utilization, an address-generator energy of -0.1 (to be
    computed), and [n_elements] instances in a mesh of [n_elements] by
    one. *)
Theorem ParseSpecs_defaults name entries n_elements :
  0 < entries < 2 ^ 64 ->
  exists specs,
    ParseSpecs kDefaultWordBits parseName DRAMEnergy SRAMEnergy SRAMArea
      (minimal name entries) n_elements
    = Done (Returns specs) /\
    let s := FullSpecs.evaluated specs in
    FullSpecs.level_name specs = parseName name /\
    Specs.technology s = SRAM /\
    Specs.size s = Some entries /\ Specs.effective_size s = Some entries /\
    Specs.word_bits s = kDefaultWordBits /\
    Specs.block_size s = Some 1 /\ Specs.cluster_size s = Some 1 /\
    Specs.metadata_block_size s = 1 /\ Specs.metadata_word_bits s = 0 /\
    FullSpecs.num_ports specs = 2 /\ FullSpecs.num_banks specs = 2 /\
    Specs.read_bandwidth s = None /\ Specs.write_bandwidth s = None /\
    Specs.multiple_buffering s = 1%Q /\ Specs.min_utilization s = 0%Q /\
    Specs.addr_gen_energy s = (- (1 # 10))%Q /\
    Specs.instances s = Some n_elements /\
    FullSpecs.meshX specs = Some n_elements /\ FullSpecs.meshY specs = Some 1.
Proof.
  intros Hentries. unfold ParseSpecs, minimal.
  cbn [config.attributes config.settings default from_option].
  unfold parse_cluster_size, parse_size, parse_num_ports, parse_bandwidth,
    parse_effective_size, pat_energy_area, parse_technology.
  cbn [settings_of config.lookupValue_uint32 config.lookupValue_double
       config.lookupValue_string config.exists_ lookup_first lookup_in find fst snd
       String.eqb Ascii.eqb Bool.eqb fmap option_fmap option_map default from_option
       existsb map app negb assert found String.index].
  cbn [mbind outcome_bind mret outcome_ret IsSpecified Get assert negb orb].
  rewrite (fdiv_Done (dbl entries) 1) by (compute; discriminate). cbn [mbind outcome_bind].
  assert (Qfloor (dbl entries / 1) = entries) as ->.
  { unfold dbl. rewrite <- (Qfloor_Z entries) at 2. apply Qfloor_comp.
    unfold Qdiv. change (/ 1)%Q with 1%Q. apply Qmult_1_r. }
  assert (to_uint64 (dbl entries) = Done entries) as ->.
  { apply to_uint64_Done. rewrite trunc_dbl. split; [done | lia]. }
  cbn [mbind outcome_bind mret outcome_ret IsSpecified Get assert negb orb Qeq_bool].
  change (Qeq_bool 0 0) with true. change (Qltb 0 0) with false.
  cbn [mbind outcome_bind mret outcome_ret IsSpecified Get assert negb orb].
  assert ((entries =? 0) = false) as -> by lia.
  unfold umod, udiv. change (1 =? 0) with false.
  cbn [mbind outcome_bind mret outcome_ret].
  rewrite Z.mod_1_r, Z.div_1_r. change (0 =? 0) with true.
  rewrite !(fdiv_Done _ (dbl 1)) by (compute; discriminate).
  cbn [mbind outcome_bind mret outcome_ret].
  unfold ValidateTopology. cbn.
  eexists. split; [reflexivity|]. cbn. repeat split.
Qed.

End ParsingProperties.

(** The level [banked]: sixteen rows of four words make 64 words. *)
Lemma ParseSpecs_size_witness :
  exists specs block_size,
    ParseSpecs 16 (fun n => n) dram_energy sram_energy sram_area banked 1
    = Done (Returns specs) /\
    Specs.block_size (FullSpecs.evaluated specs) = Some block_size /\
    Specs.size (FullSpecs.evaluated specs) = Some (u64 (16 * block_size)).
Proof.
  destruct (ParseSpecs 16 (fun n => n) dram_energy sram_energy sram_area banked 1)
    as [[specs|status]|f] eqn:H; [|vm_compute in H; discriminate..].
  destruct (ParseSpecs_size _ _ _ _ _ _ _ _ H) as (_ & Hdepth & _).
  destruct (Hdepth 16 eq_refl eq_refl) as (block_size & Hb & Hs & _).
  exists specs, block_size. repeat split; assumption || reflexivity.
Defined.




(** Its 128 bits of width are two blocks of four 16-bit words. *)
Lemma ParseSpecs_cluster_size_witness :
  exists specs cluster_size block_size,
    ParseSpecs 16 (fun n => n) dram_energy sram_energy sram_area banked 1
    = Done (Returns specs) /\
    Specs.cluster_size (FullSpecs.evaluated specs) = Some cluster_size /\
    Specs.block_size (FullSpecs.evaluated specs) = Some block_size /\
    cluster_size
    * u32 (u32 (Specs.word_bits (FullSpecs.evaluated specs)) * u32 block_size) = 128.
Proof.
  destruct (ParseSpecs 16 (fun n => n) dram_energy sram_energy sram_area banked 1)
    as [[specs|status]|f] eqn:H; [|vm_compute in H; discriminate..].
  destruct (ParseSpecs_cluster_size _ _ _ _ _ _ _ _ H) as (_ & Hwidth & _).
  destruct (Hwidth 128 eq_refl eq_refl) as (c & b & Hc & Hb & _ & Hw).
  exists specs, c, b. repeat split; assumption || reflexivity.
Defined.

(** It asks for a metadata block size of two and gets its block size. *)
Lemma ParseSpecs_metadata_block_size_witness :
  exists specs,
    ParseSpecs 16 (fun n => n) dram_energy sram_energy sram_area banked 1
    = Done (Returns specs) /\
    Specs.block_size (FullSpecs.evaluated specs)
    = Some (Specs.metadata_block_size (FullSpecs.evaluated specs)).
Proof.
  destruct (ParseSpecs 16 (fun n => n) dram_energy sram_energy sram_area banked 1)
    as [[specs|status]|f] eqn:H; [|vm_compute in H; discriminate..].
  exists specs. split; [reflexivity|].
  apply (ParseSpecs_metadata_block_size _ _ _ _ _ _ _ _ H). eexists. reflexivity.
Defined.

Lemma ParseSpecs_defaults_witness :
  exists specs,
    ParseSpecs 16 (fun n => n) dram_energy sram_energy sram_area (minimal "Buffer" 64) 4
    = Done (Returns specs) /\
    Specs.effective_size (FullSpecs.evaluated specs) = Some 64 /\
    FullSpecs.meshX specs = Some 4 /\ FullSpecs.meshY specs = Some 1.
Proof.
  destruct (ParseSpecs_defaults 16 (fun n => n) dram_energy sram_energy sram_area
              "Buffer" 64 4) as (specs & H & Hrest); [lia|].
  exists specs. split; [exact H|]. cbv zeta in Hrest.
  destruct Hrest as (_ & _ & _ & He & _ & _ & _ & _ & _ & _ & _ & _ & _ & _ & _ & _ & _ & Hx & Hy).
  repeat split; assumption.
Defined.

(** ** The energy of each storage operation *)

Lemma ert_energy_found ERT_entries names e : ert_energy ERT_entries names e true = e.
Proof. induction names as [|a names IH]; simpl; [done|]. by destruct (ERT_entries !! a). Qed.

Lemma ert_energy_first ERT_entries names e :
  ert_energy ERT_entries names e false
  = default e (lookup_first (fun action => ERT_entries !! action) names).
Proof.
  induction names as [|a names IH]; simpl; [done|].
  destruct (ERT_entries !! a); simpl; [apply ert_energy_found | exact IH].
Qed.

Lemma lookup_foldl_insert {V : Type} (f : string -> V) (l : list string)
    (m : gmap string V) (k : string) :
  foldl (fun acc op => <[op := f op]> acc) m l !! k
  = if decide (k ∈ l) then Some (f k) else m !! k.
Proof.
  revert m. induction l as [|a l IH]; intros m.
  - destruct (decide (k ∈ [])) as [Hin|_]; [by apply elem_of_nil in Hin | done].
  - change (foldl (fun acc op => <[op := f op]> acc) (<[a := f a]> m) l !! k
            = if decide (k ∈ a :: l) then Some (f k) else m !! k).
    rewrite IH.
    destruct (decide (k ∈ l)) as [Hin|Hin], (decide (k ∈ a :: l)) as [Hin'|Hin'];
      try done.
    + exfalso. apply Hin'. by right.
    + apply elem_of_cons in Hin' as [->|?]; [apply lookup_insert_eq | done].
    + apply lookup_insert_ne. intros ->. apply Hin'. by left.
Qed.

Section EnergyPerOpProperties.
Variable storageOperationTypes : list string.
Variable storageOperationMappings : gmap string (list string).

Local Abbreviation populate :=
  (PopulateEnergyPerOp storageOperationTypes storageOperationMappings).

Lemma energy_per_op_from_Done specs n op_id m m' :
  energy_per_op_from storageOperationTypes storageOperationMappings specs n op_id m
  = Done m' ->
  (n = 0 \/ op_id + n <= length storageOperationTypes)%nat /\
  (forall op_name, op_name ∈ take n (drop op_id storageOperationTypes) ->
     is_Some (storageOperationMappings !! op_name) /\
     (regular_action op_name = true -> is_Some (FullSpecs.vector_access_energy specs))) /\
  m' = foldl (fun acc op_name =>
                <[op_name := energy_of storageOperationMappings specs op_name]> acc) m
         (take n (drop op_id storageOperationTypes)).
Proof.
  revert op_id m. induction n as [|n IH]; intros op_id m H; simpl in H.
  - injection H as <-. rewrite take_0. split; [by left|]. split; [|done].
    intros ? Hin. by apply elem_of_nil in Hin.
  - apply bind_Done in H as (m1 & Hstep & H). apply IH in H as (Hlen & Hall & ->).
    unfold energy_per_op in Hstep.
    destruct (storageOperationTypes !! op_id) as [op_name|] eqn:Hop; [|discriminate].
    rewrite Done_bind in Hstep.
    apply bind_Done in Hstep as (fallback & Hfallback & Hstep).
    apply bind_Done in Hstep as (names & Hnames & Hstep).
    injection Hstep as <-.
    unfold at_ in Hnames.
    destruct (storageOperationMappings !! op_name) as [names'|] eqn:Hmap; [|discriminate].
    injection Hnames as ->.
    rewrite (drop_S _ _ _ Hop). rewrite firstn_cons.
    split; [right; apply lookup_lt_Some in Hop; lia|]. split.
    + intros op Hin. apply elem_of_cons in Hin as [->|Hin]; [|by apply Hall].
      rewrite Hmap. split; [done|]. intros Hr. rewrite Hr in Hfallback.
      by destruct (FullSpecs.vector_access_energy specs).
    + simpl. f_equal. f_equal. unfold energy_of. rewrite Hmap, ert_energy_first. simpl.
      f_equal. destruct (regular_action op_name); [|by injection Hfallback].
      destruct (FullSpecs.vector_access_energy specs); [by injection Hfallback|discriminate].
Qed.

Lemma energy_per_op_from_returns specs n op_id m :
  (op_id + n <= length storageOperationTypes)%nat ->
  (forall op_name, op_name ∈ take n (drop op_id storageOperationTypes) ->
     is_Some (storageOperationMappings !! op_name) /\
     (regular_action op_name = true -> is_Some (FullSpecs.vector_access_energy specs))) ->
  exists m',
    energy_per_op_from storageOperationTypes storageOperationMappings specs n op_id m
    = Done m'.
Proof.
  revert op_id m. induction n as [|n IH]; intros op_id m Hlen Hall; simpl.
  - by eexists.
  - destruct (lookup_lt_is_Some_2 storageOperationTypes op_id) as [op_name Hop]; [lia|].
    rewrite (drop_S _ _ _ Hop), firstn_cons in Hall.
    unfold energy_per_op. rewrite Hop, Done_bind.
    destruct (Hall op_name) as [[names Hnames] Hvae]; [by left|].
    assert (exists fallback,
              (if regular_action op_name then Get (FullSpecs.vector_access_energy specs)
               else mret 0%Q) = Done fallback) as [fallback ->].
    { destruct (regular_action op_name); [|by eexists].
      destruct Hvae as [v ->]; [done|]. by eexists. }
    rewrite Done_bind. unfold at_. rewrite Hnames, !Done_bind.
    apply IH; [lia|]. intros op Hin. apply Hall. by right.
Qed.

(** X11.  [PopulateEnergyPerOp] fills the table of energies per operation
    for the first [num_ops] storage operations: each gets the energy of the
    first of its action names that has an entry in the energy reference
    table and, when none has, the vector access energy if it is a random
    read, fill or update and zero if not.  The other entries of the table,
    and the rest of the specification, stay as they were, and the flag is
    set; with the flag set the call changes nothing. *)
Theorem PopulateEnergyPerOp_table num_ops specs specs' flag :
  PopulateEnergyPerOp storageOperationTypes storageOperationMappings num_ops specs false
  = Done (specs', flag) ->
  flag = true /\
  (forall op_name, op_name ∈ take num_ops storageOperationTypes ->
     exists names fallback,
       storageOperationMappings !! op_name = Some names /\
       (if regular_action op_name
        then FullSpecs.vector_access_energy specs = Some fallback
        else fallback = 0%Q) /\
       Specs.op_energy_map (FullSpecs.evaluated specs') !! op_name
       = Some (default fallback
                 (lookup_first (fun action => FullSpecs.ERT_entries specs !! action)
                    names))) /\
  (forall key, key ∉ take num_ops storageOperationTypes ->
     Specs.op_energy_map (FullSpecs.evaluated specs') !! key
     = Specs.op_energy_map (FullSpecs.evaluated specs) !! key) /\
  specs' = FullSpecs.set_evaluated
             (set_op_energy_map (Specs.op_energy_map (FullSpecs.evaluated specs'))
                (FullSpecs.evaluated specs)) specs /\
  PopulateEnergyPerOp storageOperationTypes storageOperationMappings num_ops specs' flag
  = Done (specs', flag).
Proof.
  unfold PopulateEnergyPerOp. simpl. intros H.
  apply bind_Done in H as (m' & Hm & H). injection H as <- <-.
  apply energy_per_op_from_Done in Hm as (_ & Hall & ->). rewrite drop_0 in *.
  split; [done|]. simpl. split; [|split; [|done]].
  - intros op Hin. destruct (Hall op Hin) as [[names Hnames] Hvae].
    rewrite lookup_foldl_insert, decide_True by done.
    unfold energy_of. rewrite Hnames. simpl.
    destruct (regular_action op).
    + destruct Hvae as [v Hv]; [done|]. exists names, v. by rewrite Hv.
    + by exists names, 0%Q.
  - intros key Hkey. by rewrite lookup_foldl_insert, decide_False.
Qed.

(** X12.  [PopulateEnergyPerOp] returns exactly when [num_ops] is within
    the list of storage operations, each of the first [num_ops] operations
    has its action names in [storageOperationMappings], and the vector
    access energy is specified if one of them is a random read, fill or
    update. *)
Theorem PopulateEnergyPerOp_returns num_ops specs :
  (exists specs',
     PopulateEnergyPerOp storageOperationTypes storageOperationMappings num_ops specs false
     = Done (specs', true)) <->
  (num_ops <= length storageOperationTypes)%nat /\
  (forall op_name, op_name ∈ take num_ops storageOperationTypes ->
     is_Some (storageOperationMappings !! op_name) /\
     (regular_action op_name = true -> is_Some (FullSpecs.vector_access_energy specs))).
Proof.
  unfold PopulateEnergyPerOp. simpl. split.
  - intros [specs' H]. apply bind_Done in H as (m' & Hm & _).
    apply energy_per_op_from_Done in Hm as (Hlen & Hall & _). rewrite drop_0 in Hall.
    split; [lia | done].
  - intros [Hlen Hall].
    destruct (energy_per_op_from_returns specs num_ops 0
                (Specs.op_energy_map (FullSpecs.evaluated specs))) as [m' ->];
      [done | by rewrite drop_0 |]. by eexists.
Qed.

(** X13.  Once the table is filled for all the storage operations, the
    energy of a cluster's accesses (the loop of lines 1003-1043 of
    [ComputeBufferEnergy]) has a value for every tile descriptor that has a
    count for each operation: no lookup is out of range and no quotient has
    a zero divisor. *)
Theorem PopulateEnergyPerOp_cluster_access_energy {Subnest : Type}
    specs specs' (t : tiling.DataMovementInfo Subnest)
    instance_accesses instance_metadata_accesses vector_accesses metadata_vector_accesses :
  PopulateEnergyPerOp storageOperationTypes storageOperationMappings
    (length storageOperationTypes) specs false
  = Done (specs', true) ->
  (forall op_name, op_name ∈ storageOperationTypes ->
     is_Some (tiling.fine_grained_accesses t !! op_name)) ->
  exists cluster_access_energy,
    cluster_access_energy_from (FullSpecs.evaluated specs') t
      instance_accesses instance_metadata_accesses
      vector_accesses metadata_vector_accesses storageOperationTypes 0%Q
    = Done cluster_access_energy.
Proof.
  intros H Hfine.
  assert (forall op_name, op_name ∈ storageOperationTypes ->
            is_Some (Specs.op_energy_map (FullSpecs.evaluated specs') !! op_name))
    as Htable.
  { unfold PopulateEnergyPerOp in H. simpl in H.
    apply bind_Done in H as (m' & Hm & H). injection H as <-.
    apply energy_per_op_from_Done in Hm as (_ & _ & ->). rewrite drop_0, firstn_all.
    intros op Hin. cbn. by rewrite lookup_foldl_insert, decide_True. }
  assert (forall op_name, op_name ∈ storageOperationTypes ->
            exists e, op_energy (FullSpecs.evaluated specs') t instance_accesses
                        instance_metadata_accesses vector_accesses
                        metadata_vector_accesses op_name = Done e) as Hop.
  { intros op Hin. destruct (Htable op Hin) as [energy He].
    destruct (Hfine op Hin) as [n Hn]. unfold op_energy, at_. rewrite He, Hn.
    destruct (negb (found "metadata" op) && negb (found "count" op)).
    - destruct (instance_accesses =? 0) eqn:E; simpl; [by eexists|].
      rewrite fdiv_Done; [by eexists|]. apply dbl_nonzero. lia.
    - destruct (negb (found "count" op)); [|by eexists].
      destruct (instance_metadata_accesses =? 0) eqn:E; simpl; [by eexists|].
      rewrite fdiv_Done; [by eexists|]. apply dbl_nonzero. lia. }
  clear H Htable Hfine. generalize 0%Q.
  induction storageOperationTypes as [|op ops IH]; intros acc; simpl; [by eexists|].
  destruct (Hop op) as [e ->]; [by left|]. rewrite Done_bind.
  apply IH. intros ? ?. apply Hop. by right.
Qed.

End EnergyPerOpProperties.

(** With an entry of three for random reads in the table, random reads
    cost three. *)
Lemma PopulateEnergyPerOp_table_witness :
  exists specs' flag,
    PopulateEnergyPerOp storage_operations own_names 17
      (described (Some 1) None None {["random_read" := 3%Q]}) false = Done (specs', flag) /\
    flag = true /\
    PopulateEnergyPerOp storage_operations own_names 17 specs' flag = Done (specs', flag).
Proof.
  destruct (PopulateEnergyPerOp storage_operations own_names 17
              (described (Some 1) None None {["random_read" := 3%Q]}) false)
    as [[specs' flag]|f] eqn:H; [|vm_compute in H; discriminate].
  destruct (PopulateEnergyPerOp_table _ _ _ _ _ _ H) as (Hflag & _ & _ & _ & Hagain).
  exists specs', flag. repeat split; assumption || reflexivity.
Defined.

Lemma PopulateEnergyPerOp_cluster_access_energy_witness :
  exists specs' cluster_access_energy,
    PopulateEnergyPerOp storage_operations own_names (length storage_operations)
      (described (Some 1) None None ∅) false = Done (specs', true) /\
    cluster_access_energy_from (FullSpecs.evaluated specs') (dense_tile 64 0%nat)
      128 0 128%Q 0%Q storage_operations 0%Q = Done cluster_access_energy.
Proof.
  destruct (PopulateEnergyPerOp storage_operations own_names (length storage_operations)
              (described (Some 1) None None ∅) false)
    as [[specs' flag]|f] eqn:H; [|vm_compute in H; discriminate].
  assert (flag = true) as ->.
  { pose proof H as H'. vm_compute in H'. injection H' as _ <-. reflexivity. }
  destruct (PopulateEnergyPerOp_cluster_access_energy storage_operations own_names
              _ specs' (dense_tile 64 0%nat) 128 0 128%Q 0%Q H) as [e He].
  - intros op_name Hin. unfold storage_operations in Hin.
    repeat (apply elem_of_cons in Hin as [->|Hin]; [vm_compute; eexists; reflexivity|]).
    apply elem_of_nil in Hin. destruct Hin.
  - exists specs', e. split; [reflexivity | exact He].
Defined.

(** ** What ComputeAccesses changes, and how it decides *)

Section AccessFrame.
Context {Subnest : Type}.
Variable NumDataSpaces : nat.
Variable IsReadWriteDataSpace : nat -> bool.
Variable FIXED_DRAM_SIZE_IF_UNSPECIFIED : bool.
Implicit Types level : BufferLevel Subnest.

Local Abbreviation accesses :=
  (ComputeAccesses NumDataSpaces IsReadWriteDataSpace FIXED_DRAM_SIZE_IF_UNSPECIFIED).

Lemma ComputeAccesses_totals fuel level tile mask bof status level' :
  accesses fuel level tile mask bof = Done (status, level') ->
  exists perA st0 bits st1,
    check_capacity (specs_ level) (total_utilized_capacity perA) = Done st0 /\
    compute_addr_gen_bits FIXED_DRAM_SIZE_IF_UNSPECIFIED (specs_ level)
      (total_utilized_capacity perA) = Done bits /\
    check_instances (Specs.set_addr_gen_bits bits (specs_ level)) perA st0 = Done st1 /\
    status = {| success := st1.1; fail_reason := st1.2 |} /\
    specs_ level' = Specs.set_addr_gen_bits bits (specs_ level) /\
    is_evaluated_ level' = st1.1 /\
    total_utilized_capacity (Stats.per_data_space (stats_ level'))
    = total_utilized_capacity perA /\
    utilized_instances_Max (Stats.per_data_space (stats_ level'))
    = utilized_instances_Max perA /\
    network_read_DistributedMulticastSupported level'
    = network_read_DistributedMulticastSupported level /\
    network_update_WordBits level' = network_update_WordBits level /\
    Stats.slowdown (stats_ level') = Stats.slowdown (stats_ level) /\
    Stats.cycles (stats_ level') = Stats.cycles (stats_ level) /\
    length (Stats.per_data_space (stats_ level'))
    = length (Stats.per_data_space (stats_ level)).
Proof.
  intros H. apply ComputeAccesses_Done in H.
  destruct H as (T & perA & st0 & bits & st1 & perB
                 & _ & HA & Hcap & _ & _ & Hbits & Hinst & HB & -> & ->).
  exists perA, st0, bits, st1. simpl. repeat split; try done.
  - rewrite !total_utilized_capacity_fmap.
    by rewrite (for_each_from_accesses _ _ _ _ _ (compute_utilized_clusters_accesses _) HB).
  - rewrite !utilized_instances_Max_fmap.
    by rewrite (for_each_from_accesses _ _ _ _ _ (compute_utilized_clusters_accesses _) HB).
  - unfold for_each_data_space in HA, HB.
    rewrite (for_each_from_length _ _ _ _ _ HB). apply (for_each_from_length _ _ _ _ _ HA).
Qed.



(** X15.  What [ComputeAccesses] leaves alone.  Of the specification it
    changes the address-generator width only; it keeps the networks, the
    slowdown and the cycle count; it records whether it succeeded in
    [is_evaluated_] and the subnest of the first tile in [subnest_]; and in
    the statistics of a data space it changes nothing but the access counts
    and the utilized clusters, and nothing at all past the last data
    space. *)
Theorem ComputeAccesses_frame fuel level tile mask bof status level' :
  ComputeAccesses NumDataSpaces IsReadWriteDataSpace FIXED_DRAM_SIZE_IF_UNSPECIFIED
    fuel level tile mask bof = Done (status, level') ->
  (exists bits, specs_ level' = Specs.set_addr_gen_bits bits (specs_ level)) /\
  network_read_DistributedMulticastSupported level'
  = network_read_DistributedMulticastSupported level /\
  network_update_WordBits level' = network_update_WordBits level /\
  is_evaluated_ level' = success status /\
  subnest_ level' = tiling.subnest (tile 0%nat) /\
  Stats.slowdown (stats_ level') = Stats.slowdown (stats_ level) /\
  Stats.cycles (stats_ level') = Stats.cycles (stats_ level) /\
  length (Stats.per_data_space (stats_ level'))
  = length (Stats.per_data_space (stats_ level)) /\
  forall pvi x,
    Stats.per_data_space (stats_ level) !! pvi = Some x ->
    exists x',
      Stats.per_data_space (stats_ level') !! pvi = Some x' /\
      Stats.parent_level_name x' = Stats.parent_level_name x /\
      Stats.speculation_energy_cost x' = Stats.speculation_energy_cost x /\
      Stats.energy x' = Stats.energy x /\
      Stats.energy_per_access x' = Stats.energy_per_access x /\
      Stats.temporal_reduction_energy x' = Stats.temporal_reduction_energy x /\
      Stats.addr_gen_energy x' = Stats.addr_gen_energy x /\
      Stats.read_bandwidth x' = Stats.read_bandwidth x /\
      Stats.write_bandwidth x' = Stats.write_bandwidth x /\
      ((NumDataSpaces <= pvi)%nat -> x' = x).
Proof.
  intros H. apply ComputeAccesses_Done in H.
  destruct H as (T & perA & st0 & bits & st1 & perB
                 & _ & HA & _ & _ & _ & _ & _ & HB & -> & ->).
  cbn. split; [by exists bits|]. do 6 (split; [done|]).
  unfold for_each_data_space in HA, HB. split.
  { rewrite (for_each_from_length _ _ _ _ _ HB). apply (for_each_from_length _ _ _ _ _ HA). }
  intros pvi x Hx. destruct (decide (pvi < NumDataSpaces)%nat) as [Hlt|Hge].
  - destruct (for_each_from_inside _ _ _ _ _ pvi HA) as (x0 & xA & Hx0 & HxA & HperA); [lia|].
    destruct (for_each_from_inside _ _ _ _ _ pvi HB) as (xA' & xB & HxA' & HxB & HperB); [lia|].
    rewrite Hx in Hx0. injection Hx0 as <-. rewrite HperA in HxA'. injection HxA' as <-.
    apply bind_Done in HxA as (a & _ & HxA). injection HxA as <-.
    apply compute_utilized_clusters_Done in HxB as (c & ->).
    exists (set_utilized_clusters c (set_accesses a x)). split; [done|].
    repeat split; try done. lia.
  - exists x. rewrite (for_each_from_outside _ _ _ _ _ pvi HB) by lia.
    rewrite (for_each_from_outside _ _ _ _ _ pvi HA) by lia. done.
Qed.



End AccessFrame.


Lemma ComputeAccesses_frame_witness :
  exists status level',
    ComputeAccesses 1 read_only false 0
      (new_level (sram 65536) 1) (dense_tile 65536) all_kept true = Done (status, level') /\
    is_evaluated_ level' = success status /\
    Stats.cycles (stats_ level') = 0.
Proof.
  destruct (ComputeAccesses 1 read_only false 0
              (new_level (sram 65536) 1) (dense_tile 65536) all_kept true)
    as [[status level']|f] eqn:H; [|vm_compute in H; discriminate].
  destruct (ComputeAccesses_frame _ _ _ _ _ _ _ _ _ _ H)
    as (_ & _ & _ & Heval & _ & _ & Hcycles & _).
  exists status, level'. split; [reflexivity|]. split; [exact Heval | exact Hcycles].
Defined.


(** ** The performance pass *)





Section PerformanceProperties.
Variable NumDataSpaces : nat.








End PerformanceProperties.



(** ** Evaluate as a whole *)

Section EvaluateProperties.
Context {Subnest : Type}.
Variable NumDataSpaces : nat.
Variable IsReadWriteDataSpace : nat -> bool.
Variable storageOperationTypes : list string.
Variable AdderEnergy : Z -> Z -> Q.
Variable FIXED_DRAM_SIZE_IF_UNSPECIFIED : bool.
Implicit Types level : BufferLevel Subnest.

Local Abbreviation evaluate :=
  (Evaluate NumDataSpaces IsReadWriteDataSpace storageOperationTypes AdderEnergy
     FIXED_DRAM_SIZE_IF_UNSPECIFIED).
Local Abbreviation accesses :=
  (ComputeAccesses NumDataSpaces IsReadWriteDataSpace FIXED_DRAM_SIZE_IF_UNSPECIFIED).

Lemma Evaluate_Done fuel level tile mask cc bof status level' :
  evaluate fuel level tile mask cc bof = Done (status, level') ->
  exists level1,
    accesses fuel level tile mask bof = Done (status, level1) /\
    ((bof = true /\ success status = false /\ level' = level1) \/
     ((bof = false \/ success status = true) /\
      exists perC perD perE stats,
        ComputeBufferEnergy NumDataSpaces storageOperationTypes level1 tile = Done perC /\
        for_each_data_space NumDataSpaces
          (reduction_energy IsReadWriteDataSpace AdderEnergy (specs_ level1)
             (network_update_WordBits level1)) perC = Done perD /\
        for_each_data_space NumDataSpaces
          (addr_gen_energy_of AdderEnergy (specs_ level1)) perD = Done perE /\
        ComputePerformance NumDataSpaces (specs_ level1)
          (set_stats perE (stats_ level1)) cc = Done stats /\
        level' = set_level_stats stats level1)).
Proof.
  unfold Evaluate. intros H. apply bind_Done in H as ([status1 level1] & HCA & H).
  destruct bof, (success status1) eqn:Hs; cbn [negb orb] in H.
  2: { injection H as <- <-. exists level1. split; [done|]. by left. }
  all: apply bind_Done in H as (perC & HC & H); apply bind_Done in H as (perD & HD & H);
    apply bind_Done in H as (perE & HE & H); apply bind_Done in H as (stats & HP & H);
    injection H as <- <-; exists level1; (split; [done|]); right;
    (split; [auto|]); by exists perC, perD, perE, stats.
Qed.

(** X19.  A failed evaluation that breaks on failure stops after
    [ComputeAccesses]: the access counts and utilized clusters are the new
    ones, while the energies, the bandwidths, the slowdown and the cycle
    count are left as the level had them before the call. *)
Theorem Evaluate_breaks_on_failure fuel level tile mask cc status level' :
  Evaluate NumDataSpaces IsReadWriteDataSpace storageOperationTypes AdderEnergy
    FIXED_DRAM_SIZE_IF_UNSPECIFIED fuel level tile mask cc true = Done (status, level') ->
  success status = false ->
  ComputeAccesses NumDataSpaces IsReadWriteDataSpace FIXED_DRAM_SIZE_IF_UNSPECIFIED
    fuel level tile mask true = Done (status, level') /\
  is_evaluated_ level' = false /\
  Stats.slowdown (stats_ level') = Stats.slowdown (stats_ level) /\
  Stats.cycles (stats_ level') = Stats.cycles (stats_ level) /\
  forall pvi, (pvi < NumDataSpaces)%nat ->
    exists x x',
      Stats.per_data_space (stats_ level) !! pvi = Some x /\
      Stats.per_data_space (stats_ level') !! pvi = Some x' /\
      Stats.energy x' = Stats.energy x /\
      Stats.energy_per_access x' = Stats.energy_per_access x /\
      Stats.speculation_energy_cost x' = Stats.speculation_energy_cost x /\
      Stats.temporal_reduction_energy x' = Stats.temporal_reduction_energy x /\
      Stats.addr_gen_energy x' = Stats.addr_gen_energy x /\
      Stats.read_bandwidth x' = Stats.read_bandwidth x /\
      Stats.write_bandwidth x' = Stats.write_bandwidth x.
Proof.
  intros H Hfail. apply Evaluate_Done in H as (level1 & HCA & H).
  destruct H as [(_ & _ & ->) | ([[=] | Hs] & _)]; [|congruence].
  split; [done|].
  pose proof (ComputeAccesses_totals _ _ _ _ _ _ _ _ _ _ HCA)
    as (perA & st0 & bits & st1 & _ & _ & _ & Hstatus & _ & Heval & _ & _ & _ & _
        & Hslow & Hcycles & _).
  split; [by rewrite Heval, <- Hfail, Hstatus|]. split; [done|]. split; [done|].
  intros pvi Hpvi.
  destruct (ComputeAccesses_entry _ _ _ _ _ _ _ _ _ _ pvi HCA Hpvi)
    as (T & x & a & c & _ & Hx & _ & Hx').
  exists x, (set_utilized_clusters c (set_accesses a x)). done.
Qed.

(** X20.  The pre-check does not depend on what has been evaluated: on the
    level [Evaluate] leaves behind, [PreEvaluationCheck] returns what it
    returns on the level before the call. *)
Theorem PreEvaluationCheck_after_Evaluate fuel level tile mask cc bof status level'
    working_set_sizes mask' workload bof' :
  Evaluate NumDataSpaces IsReadWriteDataSpace storageOperationTypes AdderEnergy
    FIXED_DRAM_SIZE_IF_UNSPECIFIED fuel level tile mask cc bof = Done (status, level') ->
  PreEvaluationCheck NumDataSpaces level' working_set_sizes mask' workload bof'
  = PreEvaluationCheck NumDataSpaces level working_set_sizes mask' workload bof'.
Proof.
  intros H. apply Evaluate_Done in H as (level1 & HCA & H).
  pose proof (ComputeAccesses_totals _ _ _ _ _ _ _ _ _ _ HCA)
    as (perA & st0 & bits & st1 & _ & _ & _ & _ & Hspecs & _ & _ & _ & Hnet & _).
  assert (specs_ level' = specs_ level1 /\
          network_read_DistributedMulticastSupported level'
          = network_read_DistributedMulticastSupported level1) as [Hs Hn].
  { destruct H as [(_ & _ & ->) | (_ & ? & ? & ? & ? & _ & _ & _ & _ & ->)]; done. }
  unfold PreEvaluationCheck. rewrite Hs, Hn, Hspecs, Hnet. done.
Qed.





End EvaluateProperties.

(** A tile of 70000 words on a level of 65536, breaking on failure. *)
Lemma Evaluate_breaks_on_failure_witness :
  exists status level',
    Evaluate 1 read_only storage_operations adder_energy false 0
      (new_level (sram 65536) 1) (dense_tile 70000) all_kept 100 true
    = Done (status, level') /\
    is_evaluated_ level' = false /\ Stats.cycles (stats_ level') = 0.
Proof.
  destruct (Evaluate 1 read_only storage_operations adder_energy false 0
              (new_level (sram 65536) 1) (dense_tile 70000) all_kept 100 true)
    as [[status level']|f] eqn:H; [|vm_compute in H; discriminate].
  destruct (Evaluate_breaks_on_failure _ _ _ _ _ _ _ _ _ _ _ _ H)
    as (_ & Heval & _ & Hcycles & _).
  - pose proof H as H'. vm_compute in H'. injection H' as <- _. reflexivity.
  - exists status, level'. split; [reflexivity|]. split; [exact Heval | exact Hcycles].
Defined.

Lemma PreEvaluationCheck_after_Evaluate_witness :
  exists status level',
    Evaluate 1 read_only storage_operations adder_energy false 0
      (new_level (sram 65536) 1) (dense_tile 65536) all_kept 65536 true
    = Done (status, level') /\
    PreEvaluationCheck 1 level' (fun _ => 70000) all_kept (fun _ => dense) true
    = PreEvaluationCheck 1 (new_level (sram 65536) 1) (fun _ => 70000) all_kept
        (fun _ => dense) true.
Proof.
  destruct (Evaluate 1 read_only storage_operations adder_energy false 0
              (new_level (sram 65536) 1) (dense_tile 65536) all_kept 65536 true)
    as [[status level']|f] eqn:H; [|vm_compute in H; discriminate].
  exists status, level'. split; [reflexivity|].
  exact (PreEvaluationCheck_after_Evaluate _ _ _ _ _ _ _ _ _ _ _ _ _ _ _ _ _ H).
Defined.



(** ** Capacity utilization *)






Section Utilization.
Context {Subnest : Type}.
Variable NumDataSpaces : nat.
Variable IsReadWriteDataSpace : nat -> bool.
Variable storageOperationTypes : list string.
Variable AdderEnergy : Z -> Z -> Q.
Variable FIXED_DRAM_SIZE_IF_UNSPECIFIED : bool.
Implicit Types level : BufferLevel Subnest.


End Utilization.


(** ** Tile sizes and the sharing of the buffer *)



Section MetaDataProperties.
Context {Subnest : Type}.
Implicit Types t : tiling.DataMovementInfo Subnest.


End MetaDataProperties.


(** X25.  The number of vector accesses is the number of scalar accesses
    divided by the block size and rounded up: enough blocks to cover the
    accesses, and none to spare.  A block size of zero is divided by. *)
Theorem vector_accesses_of_ceiling instance_accesses block_size :
  0 <= instance_accesses < 2 ^ 64 ->
  (0 < block_size ->
   exists vector_accesses,
     vector_accesses_of instance_accesses block_size = Done vector_accesses /\
     instance_accesses <= vector_accesses * block_size < instance_accesses + block_size) /\
  vector_accesses_of instance_accesses 0 = Fault DivisionByZero.
Proof.
  intros Ha. split; [|done]. intros Hb. unfold vector_accesses_of, umod, udiv.
  assert ((block_size =? 0) = false) as -> by lia. cbn [mbind outcome_bind mret outcome_ret].
  pose proof (Z.div_mod instance_accesses block_size ltac:(lia)) as Hdm.
  pose proof (Z.mod_pos_bound instance_accesses block_size Hb) as Hm.
  assert (0 <= instance_accesses / block_size) as Hq by (apply Z.div_pos; lia).
  destruct (instance_accesses mod block_size =? 0) eqn:E.
  - apply Z.eqb_eq in E. eexists. split; [done|]. nia.
  - apply Z.eqb_neq in E. eexists. split; [done|].
    rewrite u64_small; [nia|]. split; [lia|].
    assert (instance_accesses / block_size <= instance_accesses); [|nia].
    apply Z.div_le_upper_bound; nia.
Qed.

Lemma vector_accesses_of_ceiling_witness :
  exists vector_accesses,
    vector_accesses_of 10 4 = Done vector_accesses /\
    10 <= vector_accesses * 4 < 10 + 4.
Proof.
  apply (vector_accesses_of_ceiling 10 4); lia.
Defined.

Section Sharing.
Context {Subnest : Type}.
Variable NumDataSpaces : nat.
Implicit Types tile : nat -> tiling.DataMovementInfo Subnest.





End Sharing.


Section Unfitted.
Context {Subnest : Type}.
Variable NumDataSpaces : nat.
Variable IsReadWriteDataSpace : nat -> bool.
Variable FIXED_DRAM_SIZE_IF_UNSPECIFIED : bool.
Implicit Types level : BufferLevel Subnest.


End Unfitted.


(** ** The energy of an instance *)

Section EnergyProperties.
Context {Subnest : Type}.
Variable storageOperationTypes : list string.
Implicit Types tile : nat -> tiling.DataMovementInfo Subnest.


End EnergyProperties.

